(** * pdf-to-data: the table extraction script [code/extract_tables.py]

    A shallow embedding of the helper functions [reverse_strings],
    [extract_header_above_table], [extract_lines_below_table] and of the
    page loop of [process_pdf], together with the properties the
    specification states about them.

    Modelling choices.
    - A Python [str] is a sequence of Unicode code points: [list N].
      Slicing with [[::-1]] is [rev].
    - [str.splitlines] and [str.strip] follow CPython: the scan over line
      boundaries of [stringlib/split.h] and the whitespace table of
      [unicodetype_db.h].
    - Page coordinates are binary64 floating-point numbers, as Python's
      [float]; the integer constants of the script (0, 60, 70) are the
      floats of the same value.  Python's two-argument [max] and [min]
      keep their first argument unless the second is strictly greater
      (smaller).
    - pdfplumber is a collaborator: a page is a record giving its size,
      the text found inside a rectangle, the detected cell grids and the
      detected table objects.  The model describes the calls that
      return: an exception raised by the collaborator stops the script,
      so the theorems speak of what is returned and of the files that
      are written, not of the fact that a file is written.
    - The cells pdfplumber yields are strings or [None]; the frames are
      modelled without the conversion pandas applies to columns holding
      numbers, and the theorems about cell values are stated for such
      tables.
    - A pandas [DataFrame] is column-major: a row count and an ordered
      list of labelled columns. *)

From Stdlib Require Import List NArith ZArith Floats Bool Lia.
From Stdlib Require Import Sorted DecimalZ FinFun.
Import ListNotations.


(** ** Python strings *)

Module PyStr.

Definition char := N.
Definition str := list char.

Definition newline : char := 10%N.
Definition carriage_return : char := 13%N.

(** [Py_UNICODE_ISLINEBREAK]: the boundaries [str.splitlines] splits on. *)
Definition is_linebreak (c : char) : bool :=
  ((10 <=? c) && (c <=? 13) || (28 <=? c) && (c <=? 30)
   || (c =? 133) || (c =? 8232) || (c =? 8233))%N.

(** [Py_UNICODE_ISSPACE]: the characters [str.strip()] removes. *)
Definition is_space (c : char) : bool :=
  ((9 <=? c) && (c <=? 13) || (28 <=? c) && (c <=? 31) || (c =? 32)
   || (c =? 133) || (c =? 160) || (c =? 5760)
   || (8192 <=? c) && (c <=? 8202)
   || (c =? 8232) || (c =? 8233) || (c =? 8239) || (c =? 8287)
   || (c =? 12288))%N.

(** [text.splitlines()].  [line] holds, last character first, the
    characters read since the previous boundary; a carriage return
    directly followed by a line feed is one boundary; a text ending in a
    boundary has no empty last line. *)
Fixpoint splitlines_from (line : str) (text : str) : list str :=
  match text with
  | [] => match line with [] => [] | _ :: _ => [rev line] end
  | c :: rest =>
      if is_linebreak c then
        rev line ::
          (if (c =? carriage_return)%N then
             match rest with
             | c' :: rest' =>
                 if (c' =? newline)%N then splitlines_from [] rest'
                 else splitlines_from [] rest
             | [] => splitlines_from [] rest
             end
           else splitlines_from [] rest)
      else splitlines_from (c :: line) rest
  end.

Definition splitlines (text : str) : list str := splitlines_from [] text.

Fixpoint lstrip (s : str) : str :=
  match s with
  | [] => []
  | c :: rest => if is_space c then lstrip rest else s
  end.

Definition rstrip (s : str) : str := rev (lstrip (rev s)).

Definition strip (s : str) : str := rstrip (lstrip s).

(** Truth value of a string: the empty string is false. *)
Definition truthy (s : str) : bool :=
  match s with [] => false | _ :: _ => true end.

(** [[line.strip() for line in text.splitlines() if line.strip()]] *)
Definition stripped_lines (text : str) : list str :=
  map strip (filter (fun line => truthy (strip line)) (splitlines text)).

(** [lines[i][::-1] if len(lines) > i else ""] *)
Definition reversed_line (lines : list str) (i : nat) : str :=
  match nth_error lines i with
  | Some line => rev line
  | None => []
  end.

(** A trimmed line: not empty, no whitespace at either end. *)
Definition trimmed (l : str) : Prop :=
  l <> []
  /\ (forall c r, l = c :: r -> is_space c = false)
  /\ (forall c r, rev l = c :: r -> is_space c = false).

End PyStr.

Import PyStr.

(** ** Pages and bands *)

Definition BBox : Type := float * float * float * float.

Record TableObj := { bbox : BBox }.

Inductive cell :=
| CNone
| CNaN
| CInt (z : Z)
| CStr (s : str).

Definition Table := list (list cell).

(** What the script uses of a pdfplumber page.  [within_bbox_extract_text
    b] stands for [page.within_bbox(b).extract_text()] when that call
    returns: [None] or a string.  pdfplumber may instead raise for a
    rectangle without area or off the page, which ends the script. *)
Record Page := {
  width : float;
  height : float;
  within_bbox_extract_text : BBox -> option str;
  extract_tables : list Table;
  find_tables : list TableObj
}.

(** [max(a, b)]: [b] if [b > a], else [a]. *)
Definition py_max (a b : float) : float :=
  if (a <? b)%float then b else a.

(** [min(a, b)]: [b] if [b < a], else [a]. *)
Definition py_min (a b : float) : float :=
  if (b <? a)%float then b else a.

Definition default_height_above : float := 60%float.
Definition default_height_scan : float := 70%float.

Definition header_bbox (page : Page) (table_bbox : BBox) (height_above : float) : BBox :=
  let '(x0, y0, x1, y1) := table_bbox in
  let page_width := width page in
  (0, py_max (y0 - height_above) 0, page_width, y0)%float.

Definition footer_bbox (page : Page) (table_bbox : BBox) (height_scan : float) : BBox :=
  let '(x0, y0, x1, y1) := table_bbox in
  let page_width := width page in
  let page_height := height page in
  (0, y1, page_width, py_min (y1 + height_scan) page_height)%float.

(** [if not text]: [None] and the empty string are both false. *)
Definition text_truthy (text : option str) : bool :=
  match text with
  | Some s => truthy s
  | None => false
  end.

Definition text_value (text : option str) : str :=
  match text with
  | Some s => s
  | None => []
  end.

Definition extract_header_above_table
    (page : Page) (table_bbox : BBox) (height_above : float) : str * str :=
  let text := within_bbox_extract_text page (header_bbox page table_bbox height_above) in
  if negb (text_truthy text) then ([], [])
  else
    let lines := stripped_lines (text_value text) in
    let first_line := reversed_line lines 0 in
    let second_line := reversed_line lines 1 in
    (first_line, second_line).

(** The loop [for l in [fourth_line, fifth_line]: if l: combined += "\n" + l]. *)
Definition append_lines (combined : str) (ls : list str) : str :=
  fold_left (fun combined l => if truthy l then combined ++ newline :: l else combined)
            ls combined.

Definition extract_lines_below_table
    (page : Page) (table_bbox : BBox) (height_scan : float) : str :=
  let text := within_bbox_extract_text page (footer_bbox page table_bbox height_scan) in
  if negb (text_truthy text) then []
  else
    let lines := stripped_lines (text_value text) in
    let third_line := reversed_line lines 2 in
    let fourth_line := reversed_line lines 3 in
    let fifth_line := reversed_line lines 4 in
    append_lines third_line [fourth_line; fifth_line].

(** ** Data frames *)

Inductive label :=
| LInt (n : nat)
| LStr (s : str).

Fixpoint str_eqb (s t : str) : bool :=
  match s, t with
  | [], [] => true
  | c :: s', d :: t' => (c =? d)%N && str_eqb s' t'
  | _, _ => false
  end.

Definition label_eqb (a b : label) : bool :=
  match a, b with
  | LInt n, LInt m => Nat.eqb n m
  | LStr s, LStr t => str_eqb s t
  | _, _ => false
  end.

Definition column : Type := label * list cell.

Record DataFrame := {
  nrows : nat;
  columns : list column
}.

Definition labels (df : DataFrame) : list label := map fst (columns df).

Definition list_truthy {A : Type} (l : list A) : bool :=
  match l with [] => false | _ :: _ => true end.

(** Number of columns of [pd.DataFrame(table)]: the length of the longest
    row. *)
Definition table_width (table : Table) : nat :=
  fold_right Nat.max 0 (map (@length cell) table).

(** [pd.DataFrame(table)]: one row per inner list, columns labelled
    0, 1, ..., rows shorter than the longest one filled with [None].
    The cells are kept as they are, which is what pandas does for the
    strings and [None] of a pdfplumber table. *)
Definition pd_DataFrame (table : Table) : DataFrame :=
  {| nrows := length table;
     columns := map (fun j => (LInt j, map (fun row => nth j row CNone) table))
                    (seq 0 (table_width table)) |}.

(** [df.applymap(f)] *)
Definition applymap (f : cell -> cell) (df : DataFrame) : DataFrame :=
  {| nrows := nrows df;
     columns := map (fun c : column => (fst c, map f (snd c))) (columns df) |}.

(** [lambda x: x[::-1] if isinstance(x, str) else x] *)
Definition reverse_cell (x : cell) : cell :=
  match x with
  | CStr s => CStr (rev s)
  | _ => x
  end.

Definition reverse_strings (df : DataFrame) : DataFrame :=
  applymap reverse_cell df.

(** [df[name] = values]: an existing column of that label is replaced in
    place, a new label is appended as the last column. *)
Definition setitem (df : DataFrame) (name : label) (values : list cell) : DataFrame :=
  {| nrows := nrows df;
     columns :=
       if existsb (label_eqb name) (labels df) then
         map (fun c : column => if label_eqb (fst c) name then (fst c, values) else c)
             (columns df)
       else columns df ++ [(name, values)] |}.

(** [df[name] = x] for a scalar [x]: the value is repeated on every row. *)
Definition setitem_scalar (df : DataFrame) (name : label) (x : cell) : DataFrame :=
  setitem df name (repeat x (nrows df)).

(** [range(1, n + 1)] *)
Definition range_from_1 (n : nat) : list Z := map Z.of_nat (seq 1 n).

(** Labels in the order of their first appearance. *)
Fixpoint union_labels (ls : list label) : list label :=
  match ls with
  | [] => []
  | l :: rest => l :: filter (fun l' => negb (label_eqb l' l)) (union_labels rest)
  end.

Definition get_column (df : DataFrame) (name : label) : option (list cell) :=
  option_map snd (find (fun c : column => label_eqb (fst c) name) (columns df)).

(** The values a frame contributes to column [name] of a concatenation:
    its own column, or NaN on each of its rows when it has none. *)
Definition column_or_nan (df : DataFrame) (name : label) : list cell :=
  match get_column df name with
  | Some values => values
  | None => repeat CNaN (nrows df)
  end.

(** [pd.concat(dfs, ignore_index=True)]: the frames stacked vertically
    over the union of their columns. *)
Definition pd_concat (dfs : list DataFrame) : DataFrame :=
  {| nrows := list_sum (map nrows dfs);
     columns := map (fun l => (l, flat_map (fun df => column_or_nan df l) dfs))
                    (union_labels (flat_map labels dfs)) |}.

(** Row [i] of a frame, as labelled cells in column order. *)
Definition row_at (df : DataFrame) (i : nat) : list (label * cell) :=
  map (fun c : column => (fst c, nth i (snd c) CNaN)) (columns df).

(** ** The page loop of [process_pdf] *)

Definition col_page : label :=
  LStr [1588; 1605; 1575; 1585; 1607; 32; 1589; 1601; 1581; 1607]%N.
Definition col_row : label :=
  LStr [1585; 1583; 1740; 1601]%N.
Definition col_reshte : label :=
  LStr [1585; 1588; 1578; 1607; 32; 1583; 1576; 1740; 1585; 1587; 1578; 1575; 1606]%N.
Definition col_title1 : label :=
  LStr [1593; 1606; 1608; 1575; 1606; 32; 1580; 1583; 1608; 1604]%N.
Definition col_title2 : label :=
  LStr [1593; 1606; 1608; 1575; 1606; 32; 1583; 1608; 1605]%N.
Definition col_footer : label :=
  LStr [1582; 1591; 32; 1587; 1608; 1605; 32; 1578; 1575; 32; 1662; 1606; 1580; 1605;
        32; 1662; 1575; 1740; 1740; 1606; 32; 1580; 1583; 1608; 1604]%N.

(** The body of the loop over the tables of a page, for a non-empty
    table. *)
Definition process_table
    (page_num : Z) (page : Page) (reshte : str)
    (table : Table) (table_obj : TableObj) : DataFrame :=
  let df := pd_DataFrame table in
  let df := reverse_strings df in
  let '(header_line1, header_line2) :=
    extract_header_above_table page (bbox table_obj) default_height_above in
  let footer_combined :=
    extract_lines_below_table page (bbox table_obj) default_height_scan in
  let df := setitem_scalar df col_page (CInt page_num) in
  let df := setitem df col_row (map CInt (range_from_1 (nrows df))) in
  let df := setitem_scalar df col_reshte (CStr reshte) in
  let df := setitem_scalar df col_title1 (CStr header_line1) in
  let df := setitem_scalar df col_title2 (CStr header_line2) in
  let df := setitem_scalar df col_footer (CStr footer_combined) in
  df.

(** The frames collected in [all_dfs] for one page. *)
Definition page_frames (page_num : Z) (page : Page) (reshte : str) : list DataFrame :=
  let tables := extract_tables page in
  let table_objs := find_tables page in
  let all_dfs := [] in
  if list_truthy tables && list_truthy table_objs
     && (length tables =? length table_objs)%nat
  then
    fold_left
      (fun all_dfs (p : Table * TableObj) =>
         let (table, table_obj) := p in
         if negb (list_truthy table) then all_dfs
         else all_dfs ++ [process_table page_num page reshte table table_obj])
      (combine tables table_objs) all_dfs
  else all_dfs.

(** A spreadsheet written by [to_excel]: the file
    [<pdf_name>_page_<page>.xlsx] and its content, [pdf_name] being the
    stem [os.path.splitext(os.path.basename(pdf_path))[0]]. *)
Record ExcelFile := {
  excel_pdf_name : str;
  excel_page : Z;
  excel_data : DataFrame
}.

(** One iteration of the loop over pages: the file written, if any. *)
Definition process_page
    (pdf_name : str) (page_num : Z) (page : Page) (reshte : str) : option ExcelFile :=
  let all_dfs := page_frames page_num page reshte in
  if list_truthy all_dfs then
    let result_df := pd_concat all_dfs in
    Some {| excel_pdf_name := pdf_name; excel_page := page_num; excel_data := result_df |}
  else None.

(** [for page_num, page in enumerate(pdf.pages, start=...)] *)
Fixpoint process_pages
    (pdf_name : str) (page_num : Z) (pages : list Page) (reshte : str) : list ExcelFile :=
  match pages with
  | [] => []
  | page :: rest =>
      match process_page pdf_name page_num page reshte with
      | Some file => file :: process_pages pdf_name (page_num + 1) rest reshte
      | None => process_pages pdf_name (page_num + 1) rest reshte
      end
  end.

(** The files written by [process_pdf], in the order they are written;
    [pdf_name] is the stem computed from [pdf_path]. *)
Definition process_pdf (pdf_name : str) (pages : list Page) (reshte : str) : list ExcelFile :=
  process_pages pdf_name 1 pages reshte.

(** ** Output file names *)

(** The digits of a decimal numeral as characters. *)
Fixpoint uint_digits (d : Decimal.uint) : str :=
  match d with
  | Decimal.Nil => []
  | Decimal.D0 d => 48%N :: uint_digits d
  | Decimal.D1 d => 49%N :: uint_digits d
  | Decimal.D2 d => 50%N :: uint_digits d
  | Decimal.D3 d => 51%N :: uint_digits d
  | Decimal.D4 d => 52%N :: uint_digits d
  | Decimal.D5 d => 53%N :: uint_digits d
  | Decimal.D6 d => 54%N :: uint_digits d
  | Decimal.D7 d => 55%N :: uint_digits d
  | Decimal.D8 d => 56%N :: uint_digits d
  | Decimal.D9 d => 57%N :: uint_digits d
  end.

(** [str(n)] for an integer, as an f-string formats it. *)
Definition py_str_int (n : Z) : str :=
  match Z.to_int n with
  | Decimal.Pos d => uint_digits d
  | Decimal.Neg d => 45%N :: uint_digits d
  end.

(** [f"{stem}_page_{page_num}.xlsx"], [stem] being the base name of the
    PDF without its extension. *)
Definition excel_filename (stem : str) (page_num : Z) : str :=
  stem ++ [95; 112; 97; 103; 101; 95]%N ++ py_str_int page_num
       ++ [46; 120; 108; 115; 120]%N.

Definition file_name (file : ExcelFile) : str :=
  excel_filename (excel_pdf_name file) (excel_page file).

(** ** Auxiliary notions used in the statements *)

(** Columns whose labels are positions, as [pd.DataFrame] makes them. *)
Definition positional (cols : list column) : Prop :=
  Forall (fun c : column => exists j, fst c = LInt j) cols.

(** The six columns added to the frame of a table of [n] rows. *)
Definition metadata_columns
    (n : nat) (page_num : Z) (reshte title1 title2 footnote : str) : list column :=
  [ (col_page, repeat (CInt page_num) n);
    (col_row, map CInt (range_from_1 n));
    (col_reshte, repeat (CStr reshte) n);
    (col_title1, repeat (CStr title1) n);
    (col_title2, repeat (CStr title2) n);
    (col_footer, repeat (CStr footnote) n) ].

(** The pairs of the table loop that are not skipped. *)
Definition nonempty_pair (p : Table * TableObj) : bool := list_truthy (fst p).

(** The labels of the six metadata columns, in the order they are added. *)
Definition metadata_labels : list label :=
  [col_page; col_row; col_reshte; col_title1; col_title2; col_footer].

(** A frame in which every column has one cell per row. *)
Definition rectangular (df : DataFrame) : Prop :=
  Forall (fun c : column => length (snd c) = nrows df) (columns df).

(** A string without a line boundary. *)
Definition single_line (s : str) : Prop :=
  Forall (fun c => is_linebreak c = false) s.

(** Strings joined by newlines. *)
Fixpoint join_lines (ls : list str) : str :=
  match ls with
  | [] => []
  | [l] => l
  | l :: rest => l ++ newline :: join_lines rest
  end.

Definition is_digit (c : char) : bool := ((48 <=? c) && (c <=? 57))%N.

(** The tables of a page that the loop does not skip. *)
Definition nonempty_tables (page : Page) : list Table :=
  filter (@list_truthy (list cell)) (extract_tables page).

(** Positional labels from [k] on. *)
Definition beyond (k : nat) (l : label) : bool :=
  match l with
  | LInt j => k <=? j
  | LStr _ => false
  end.

(** The labels of the frame of a table of width [w]. *)
Definition frame_labels (w : nat) : list label :=
  map LInt (seq 0 w) ++ metadata_labels.

(** The cells pdfplumber puts in a table: a string or [None]. *)
Definition text_cell (x : cell) : bool :=
  match x with
  | CNone | CStr _ => true
  | CNaN | CInt _ => false
  end.

Definition text_table (table : Table) : Prop :=
  Forall (Forall (fun x => text_cell x = true)) table.

(** ** Sample inputs *)

Module Samples.

(** ["  Title one \r\n\n sub\ttitle\n"] *)
Definition header_text : str :=
  [32; 32; 84; 105; 116; 108; 101; 32; 111; 110; 101; 32; 13; 10; 10;
   32; 115; 117; 98; 9; 116; 105; 116; 108; 101; 10]%N.

(** ["A1\nB2 \n\n C3\nD4\r\nE5\nF6"] *)
Definition footer_text : str :=
  [65; 49; 10; 66; 50; 32; 10; 10; 32; 67; 51; 10; 68; 52; 13; 10; 69; 53; 10; 70; 54]%N.

(** ["only line\n"] *)
Definition one_line_text : str :=
  [111; 110; 108; 121; 32; 108; 105; 110; 101; 10]%N.

(** [" \n\t\r\n  "] *)
Definition blank_text : str := [32; 10; 9; 13; 10; 32; 32]%N.

Definition table_bbox : BBox := (50, 100, 500, 300)%float.

(** Text above ordinate 100 is the header text, text below it the footer
    text. *)
Definition text_of (above below : option str) (b : BBox) : option str :=
  let '(_, _, _, bottom) := b in
  if (bottom <=? 100)%float then above else below.

Definition grid (a b c : N) : Table :=
  [[CStr [a; 49%N]; CNone]; [CStr [b; 50%N; 51%N]; CStr [55%N; 56%N]]; [CStr [c]]].

Definition page_two_tables : Page :=
  {| width := 595; height := 842;
     within_bbox_extract_text := text_of (Some header_text) (Some footer_text);
     extract_tables := [grid 97 98 99; grid 120 121 122];
     find_tables := [{| bbox := table_bbox |}; {| bbox := (50, 400, 500, 600)%float |}] |}.

Definition page_one_line : Page :=
  {| width := 595; height := 842;
     within_bbox_extract_text := text_of (Some one_line_text) None;
     extract_tables := [grid 97 98 99];
     find_tables := [{| bbox := table_bbox |}] |}.

Definition page_blank : Page :=
  {| width := 595; height := 842;
     within_bbox_extract_text := text_of (Some blank_text) (Some blank_text);
     extract_tables := [grid 97 98 99];
     find_tables := [{| bbox := table_bbox |}] |}.

(** Two cell grids but a single table object. *)
Definition page_mismatch : Page :=
  {| width := 595; height := 842;
     within_bbox_extract_text := text_of (Some header_text) (Some footer_text);
     extract_tables := [grid 97 98 99; grid 120 121 122];
     find_tables := [{| bbox := table_bbox |}] |}.

Definition reshte : str := [1607; 1606; 1585]%N.

Definition pdf_name : str := [104; 111; 110; 97; 114]%N.

(** A table of two columns followed by a table of three. *)
Definition page_widening : Page :=
  {| width := 595; height := 842;
     within_bbox_extract_text := text_of (Some one_line_text) None;
     extract_tables := [grid 97 98 99; []; [[CStr [100%N]; CNone; CStr [101%N; 102%N]]]];
     find_tables := [{| bbox := table_bbox |}; {| bbox := table_bbox |};
                     {| bbox := (50, 400, 500, 600)%float |}] |}.

(** A page on which no table is detected. *)
Definition page_no_table : Page :=
  {| width := 595; height := 842;
     within_bbox_extract_text := text_of (Some header_text) (Some footer_text);
     extract_tables := [];
     find_tables := [] |}.

End Samples.

(** * Properties *)

(** ** Splitting and trimming *)

Section Strings.

Local Arguments is_space : simpl never.
Local Arguments is_linebreak : simpl never.

Lemma linebreak_is_space (c : char) :
  is_linebreak c = true -> is_space c = true.
Proof.
  unfold is_linebreak, is_space.
  repeat rewrite ?orb_true_iff, ?andb_true_iff, ?N.leb_le, ?N.eqb_eq.
  lia.
Qed.

Lemma newline_is_space : is_space newline = true.
Proof. reflexivity. Qed.

Lemma truthy_false (s : str) : truthy s = false <-> s = [].
Proof. destruct s; simpl; split; congruence. Qed.

Lemma truthy_true (s : str) : truthy s = true <-> s <> [].
Proof. destruct s; simpl; split; congruence. Qed.

(** [lstrip] drops a prefix of whitespace and nothing else. *)
Lemma lstrip_split (s : str) :
  exists p, s = p ++ lstrip s /\ forallb is_space p = true.
Proof.
  induction s as [|c s [p [Hs Hp]]]; simpl.
  - exists []. split; reflexivity.
  - destruct (is_space c) eqn:Hc.
    + exists (c :: p). simpl. rewrite Hc, Hp. split; [congruence | reflexivity].
    + exists []. split; reflexivity.
Qed.

Lemma lstrip_head (s : str) (c : char) (r : str) :
  lstrip s = c :: r -> is_space c = false.
Proof.
  induction s as [|d s IH]; simpl; [discriminate|].
  destruct (is_space d) eqn:Hd; [exact IH|].
  intros H. injection H as -> _. exact Hd.
Qed.

Lemma lstrip_blank (s : str) :
  forallb is_space s = true -> lstrip s = [].
Proof.
  induction s as [|c s IH]; simpl; [reflexivity|].
  destruct (is_space c); simpl; [exact IH | discriminate].
Qed.

Lemma strip_blank (s : str) :
  forallb is_space s = true -> strip s = [].
Proof.
  intros H. unfold strip, rstrip. rewrite (lstrip_blank _ H). reflexivity.
Qed.

(** The last character of a trimmed string is not whitespace. *)
Lemma strip_last (s : str) (c : char) (r : str) :
  rev (strip s) = c :: r -> is_space c = false.
Proof.
  unfold strip, rstrip. rewrite rev_involutive. apply lstrip_head.
Qed.

(** Neither is its first character. *)
Lemma strip_first (s : str) (c : char) (r : str) :
  strip s = c :: r -> is_space c = false.
Proof.
  unfold strip, rstrip. intros H.
  destruct (lstrip_split (rev (lstrip s))) as [p [Hp _]].
  apply (f_equal (@rev char)) in Hp.
  rewrite rev_involutive, rev_app_distr, H in Hp.
  simpl in Hp. exact (lstrip_head _ _ _ Hp).
Qed.

Lemma stripped_lines_trimmed (text : str) :
  Forall trimmed (stripped_lines text).
Proof.
  unfold stripped_lines. apply Forall_forall. intros l Hl.
  apply in_map_iff in Hl. destruct Hl as [line [<- Hline]].
  apply filter_In in Hline. destruct Hline as [_ Hline].
  apply truthy_true in Hline.
  split; [exact Hline|]. split; intros c r.
  - apply strip_first.
  - apply strip_last.
Qed.

Lemma trimmed_rev_nonempty (l : str) : trimmed l -> rev l <> [].
Proof.
  intros [Hl _] H. apply Hl.
  rewrite <- (rev_involutive l), H. reflexivity.
Qed.

Lemma trimmed_rev_truthy (l : str) : trimmed l -> truthy (rev l) = true.
Proof. intros H. apply truthy_true, trimmed_rev_nonempty, H. Qed.

(** Every line of a text made of whitespace only is blank. *)
Lemma splitlines_from_blank (n : nat) :
  forall (text line : str),
    length text <= n ->
    forallb is_space line = true ->
    forallb is_space text = true ->
    Forall (fun l => strip l = []) (splitlines_from line text).
Proof.
  assert (Hrev : forall l : str, forallb is_space l = true -> strip (rev l) = []).
  { intros l H. apply strip_blank. rewrite forallb_forall in *.
    intros x Hx. apply H. apply in_rev. exact Hx. }
  induction n as [|n IH]; intros text line Hlen Hline Htext.
  - destruct text; [|simpl in Hlen; lia].
    simpl. destruct line; constructor; [|constructor].
    apply Hrev. exact Hline.
  - destruct text as [|c rest].
    + simpl. destruct line; constructor; [|constructor].
      apply Hrev. exact Hline.
    + simpl in Hlen, Htext. apply andb_true_iff in Htext. destruct Htext as [Hc Hrest].
      simpl. destruct (is_linebreak c).
      * constructor; [apply Hrev; exact Hline|].
        assert (H0 : Forall (fun l => strip l = []) (splitlines_from [] rest)).
        { apply IH; [lia | reflexivity | exact Hrest]. }
        destruct (c =? carriage_return)%N; [|exact H0].
        destruct rest as [|c' rest']; [exact H0|].
        destruct (c' =? newline)%N; [|exact H0].
        simpl in Hlen, Hrest. apply andb_true_iff in Hrest.
        apply IH; [lia | reflexivity | apply Hrest].
      * apply IH; [lia | simpl; rewrite Hc; exact Hline | exact Hrest].
Qed.

Lemma stripped_lines_blank (text : str) :
  forallb is_space text = true -> stripped_lines text = [].
Proof.
  intros H. unfold stripped_lines, splitlines.
  pose proof (@splitlines_from_blank (length text) text [] (le_n _) eq_refl H) as HF.
  induction HF as [|l ls Hl _ IH]; simpl; [reflexivity|].
  rewrite Hl. simpl. exact IH.
Qed.

Lemma stripped_lines_nil : stripped_lines [] = [].
Proof. reflexivity. Qed.

End Strings.

(** ** The bands above and below a table *)

Lemma ltb_irrefl (x : float) : (x <? x)%float = false.
Proof.
  rewrite ltb_spec. unfold SFltb.
  destruct (Prim2SF x) as [s | s | | s m e]; simpl; try reflexivity.
  - destruct s; reflexivity.
  - destruct s; rewrite Z.compare_refl, Pos.compare_cont_refl; reflexivity.
Qed.

Lemma SFcompare_not_lt (x y : spec_float) :
  SFeqb x x = true -> SFeqb y y = true -> SFltb x y = false -> SFleb y x = true.
Proof.
  unfold SFeqb, SFltb, SFleb.
  destruct x as [sx | sx | | sx mx ex], y as [sy | sy | | sy my ey]; simpl;
    try discriminate; try reflexivity;
    try (destruct sx; simpl; try discriminate; reflexivity);
    try (destruct sy; simpl; try discriminate; reflexivity);
    try (destruct sx, sy; simpl; try discriminate; reflexivity).
  intros _ _.
  assert (E : Pos.compare_cont Eq my mx = CompOpp (Pos.compare_cont Eq mx my))
    by (symmetry; apply (Pos.compare_cont_antisym mx my Eq)).
  rewrite (Z.compare_antisym ex ey), E.
  destruct sx, sy; simpl; try discriminate; try reflexivity;
    destruct (ex ?= ey)%Z; simpl; try discriminate; try reflexivity;
    destruct (Pos.compare_cont Eq mx my); simpl; try discriminate; reflexivity.
Qed.

(** Two numbers (not NaN) are comparable. *)
Lemma ltb_false_leb (a b : float) :
  (a =? a)%float = true -> (b =? b)%float = true ->
  (a <? b)%float = false -> (b <=? a)%float = true.
Proof.
  rewrite !FloatAxioms.eqb_spec, FloatAxioms.ltb_spec, FloatAxioms.leb_spec.
  apply SFcompare_not_lt.
Qed.

(** C2: the header band is [(0, max(y0 - height_above, 0), W, y0)]: its
    top edge is 0 when [y0 - height_above] is below 0 and
    [y0 - height_above] otherwise, so it is never negative; the footer
    band is [(0, y1, W, min(y1 + height_scan, H))]: its bottom edge is
    the page height when [y1 + height_scan] lies beyond it and
    [y1 + height_scan] otherwise, so it never lies beyond the bottom of
    the page; both bands run from abscissa 0 to the page width.  The
    difference and the sum are those of floating-point arithmetic;
    [x =? x] says that [x] is a number, not NaN. *)
Theorem bands_clipped
    (page : Page) (x0 y0 x1 y1 height_above height_scan : float) :
  let W := width page in
  let H := height page in
  let top :=
    if (y0 - height_above <? 0)%float then 0%float else (y0 - height_above)%float in
  let bottom :=
    if (H <? y1 + height_scan)%float then H else (y1 + height_scan)%float in
  header_bbox page (x0, y0, x1, y1) height_above = (0%float, top, W, y0)
  /\ (top <? 0)%float = false
  /\ ((top =? top)%float = true -> (0 <=? top)%float = true)
  /\ footer_bbox page (x0, y0, x1, y1) height_scan = (0%float, y1, W, bottom)
  /\ (H <? bottom)%float = false
  /\ ((H =? H)%float = true -> (bottom =? bottom)%float = true ->
      (bottom <=? H)%float = true).
Proof.
  intros W H top bottom. unfold header_bbox, footer_bbox, py_max, py_min.
  fold W H.
  split; [reflexivity|]. split; [|split; [|split; [reflexivity|split]]].
  - unfold top. destruct (y0 - height_above <? 0)%float eqn:E; [reflexivity | exact E].
  - unfold top. destruct (y0 - height_above <? 0)%float eqn:E; [reflexivity|].
    intros Hnum. apply ltb_false_leb; [exact Hnum | reflexivity | exact E].
  - unfold bottom. destruct (H <? y1 + height_scan)%float eqn:E;
      [apply ltb_irrefl | exact E].
  - unfold bottom. destruct (H <? y1 + height_scan)%float eqn:E; intros HH Hb.
    + apply ltb_false_leb; [exact HH | exact HH | apply ltb_irrefl].
    + apply ltb_false_leb; [exact HH | exact Hb | exact E].
Qed.

(** The table of the specification at [y0 = 10], and a table whose
    [y1 = 200.02000000000007] makes the sum [y1 + 70] round upwards to
    [270.0200000000001]. *)
Lemma bands_clipped_witness :
  header_bbox Samples.page_two_tables (50, 10, 500, 300)%float 60
    = (0, 0, 595, 10)%float
  /\ (0 <=? 0)%float = true
  /\ footer_bbox Samples.page_two_tables (50, 100, 250, 0x1.900a3d70a3d73p+7)%float 70
     = (0, 0x1.900a3d70a3d73p+7, 595, 0x1.0e051eb851ebap+8)%float
  /\ (0x1.0e051eb851ebap+8 <=? 842)%float = true
  /\ footer_bbox Samples.page_two_tables (50, 10, 500, 800)%float 70
     = (0, 800, 595, 842)%float.
Proof.
  pose proof (bands_clipped Samples.page_two_tables 50 10 500 300 60 70) as H1.
  pose proof (bands_clipped Samples.page_two_tables
                50 100 250 0x1.900a3d70a3d73p+7 60 70) as H2.
  pose proof (bands_clipped Samples.page_two_tables 50 10 500 800 60 70) as H3.
  cbv zeta in H1, H2, H3.
  destruct H1 as (Hh & _ & Hle & _).
  destruct H2 as (_ & _ & _ & Hf & _ & Hfle).
  destruct H3 as (_ & _ & _ & Hf' & _).
  split; [exact Hh|]. split; [exact (Hle eq_refl)|].
  split; [exact Hf|]. split; [exact (Hfle eq_refl eq_refl)|]. exact Hf'.
Defined.

(** ** Title and footnote *)

Section Resolver.

Variable page : Page.
Variable table_bbox : BBox.

Lemma falsy_text_lines (text : option str) :
  text_truthy text = false -> stripped_lines (text_value text) = [].
Proof.
  destruct text as [[|c s]|]; simpl; intros H; try discriminate; reflexivity.
Qed.

Lemma reversed_line_nth (lines : list str) (i : nat) :
  reversed_line lines i = rev (nth i lines []).
Proof.
  unfold reversed_line. revert i.
  induction lines as [|l lines IH]; intros [|i]; simpl; try reflexivity.
  apply IH.
Qed.

(** The title in terms of the trimmed lines of the band, whatever the
    text is. *)
Lemma header_of_lines (height_above : float) :
  let text := within_bbox_extract_text page (header_bbox page table_bbox height_above) in
  let lines := stripped_lines (text_value text) in
  extract_header_above_table page table_bbox height_above
    = (reversed_line lines 0, reversed_line lines 1).
Proof.
  intros text lines. unfold extract_header_above_table. fold text.
  destruct (text_truthy text) eqn:E; simpl; [reflexivity|].
  unfold lines. rewrite (falsy_text_lines _ E). reflexivity.
Qed.

(** The footnote in terms of the trimmed lines of the band. *)
Lemma footer_of_lines (height_scan : float) :
  let text := within_bbox_extract_text page (footer_bbox page table_bbox height_scan) in
  let lines := stripped_lines (text_value text) in
  extract_lines_below_table page table_bbox height_scan
    = append_lines (reversed_line lines 2) [reversed_line lines 3; reversed_line lines 4].
Proof.
  intros text lines. unfold extract_lines_below_table. fold text.
  destruct (text_truthy text) eqn:E; simpl; [reflexivity|].
  unfold lines. rewrite (falsy_text_lines _ E). reflexivity.
Qed.

(** C1: with five or more trimmed lines in the footer band the footnote
    is [reverse(l3) + "\n" + reverse(l4) + "\n" + reverse(l5)]; with
    fewer lines it is made of the lines at positions 2, 3 and 4 that
    exist, each reversed, the third first and the others after a newline
    each; it is empty when the band has no text. *)
Theorem footnote_combination (height_scan : float) :
  let text := within_bbox_extract_text page (footer_bbox page table_bbox height_scan) in
  let lines := stripped_lines (text_value text) in
  let combined := extract_lines_below_table page table_bbox height_scan in
  let after (l : str) := match l with [] => [] | _ :: _ => newline :: l end in
  (forall l1 l2 l3 l4 l5 rest,
      lines = l1 :: l2 :: l3 :: l4 :: l5 :: rest ->
      combined = rev l3 ++ newline :: rev l4 ++ newline :: rev l5)
  /\ (forall l1 l2 l3 l4,
         lines = [l1; l2; l3; l4] -> combined = rev l3 ++ newline :: rev l4)
  /\ (forall l1 l2 l3, lines = [l1; l2; l3] -> combined = rev l3)
  /\ (length lines <= 2 -> combined = [])
  /\ combined = rev (nth 2 lines []) ++ after (rev (nth 3 lines []))
                  ++ after (rev (nth 4 lines []))
  /\ (text = None \/ text = Some [] -> combined = []).
Proof.
  intros text lines combined after.
  assert (Hc : combined
               = append_lines (reversed_line lines 2)
                   [reversed_line lines 3; reversed_line lines 4])
    by apply footer_of_lines.
  assert (Ht : Forall trimmed lines) by apply stripped_lines_trimmed.
  repeat split.
  - intros l1 l2 l3 l4 l5 rest E. rewrite Hc, E. rewrite E in Ht.
    do 3 (apply Forall_inv_tail in Ht).
    pose proof (Forall_inv Ht) as H4.
    pose proof (Forall_inv (Forall_inv_tail Ht)) as H5.
    unfold append_lines, reversed_line. simpl.
    rewrite (trimmed_rev_truthy _ H4), (trimmed_rev_truthy _ H5).
    rewrite <- app_assoc. reflexivity.
  - intros l1 l2 l3 l4 E. rewrite Hc, E. rewrite E in Ht.
    do 3 (apply Forall_inv_tail in Ht).
    pose proof (Forall_inv Ht) as H4.
    unfold append_lines, reversed_line. simpl.
    rewrite (trimmed_rev_truthy _ H4). reflexivity.
  - intros l1 l2 l3 E. rewrite Hc, E. reflexivity.
  - intros Hlen. rewrite Hc.
    destruct lines as [|l1 [|l2 [|l3 ?]]]; simpl in Hlen; try lia; reflexivity.
  - rewrite Hc, !reversed_line_nth. unfold append_lines. simpl.
    destruct (rev (nth 3 lines [])), (rev (nth 4 lines [])); simpl;
      rewrite ?app_nil_r, <- ?app_assoc; reflexivity.
  - intros Hno. unfold combined, extract_lines_below_table. fold text.
    destruct Hno as [-> | ->]; reflexivity.
Qed.

(** C6: the title is two empty strings when the header band has no text;
    [(reverse(line1), "")] when the band has exactly one trimmed line;
    in general the first and the second trimmed line, each reversed, with
    the empty string for a line that is missing. *)
Theorem title_lines (height_above : float) :
  let text := within_bbox_extract_text page (header_bbox page table_bbox height_above) in
  let lines := stripped_lines (text_value text) in
  let title := extract_header_above_table page table_bbox height_above in
  (text = None \/ text = Some [] -> title = ([], []))
  /\ (forall l1, lines = [l1] -> title = (rev l1, []))
  /\ (forall l1 l2 rest, lines = l1 :: l2 :: rest -> title = (rev l1, rev l2))
  /\ (lines = [] -> title = ([], []))
  /\ title = (rev (nth 0 lines []), rev (nth 1 lines []))
  /\ Forall trimmed lines.
Proof.
  intros text lines title.
  assert (Hc : title = (reversed_line lines 0, reversed_line lines 1))
    by apply header_of_lines.
  repeat split.
  - intros Hno. unfold title, extract_header_above_table. fold text.
    destruct Hno as [-> | ->]; reflexivity.
  - intros l1 E. rewrite Hc, E. reflexivity.
  - intros l1 l2 rest E. rewrite Hc, E. reflexivity.
  - intros E. rewrite Hc, E. reflexivity.
  - rewrite Hc, !reversed_line_nth. reflexivity.
  - apply stripped_lines_trimmed.
Qed.

(** C9: the footnote never starts with a newline; whenever the band has
    a fourth line, the third line is not empty. *)
Theorem footnote_no_leading_newline (height_scan : float) :
  let text := within_bbox_extract_text page (footer_bbox page table_bbox height_scan) in
  let lines := stripped_lines (text_value text) in
  hd_error (extract_lines_below_table page table_bbox height_scan) <> Some newline
  /\ (3 < length lines -> reversed_line lines 2 <> []).
Proof.
  intros text lines.
  assert (Ht : Forall trimmed lines) by apply stripped_lines_trimmed.
  assert (Hhd : forall base ls c,
             hd_error base = Some c -> hd_error (append_lines base ls) = Some c).
  { intros base ls. revert base.
    induction ls as [|l ls IH]; intros base c Hb; [exact Hb|].
    unfold append_lines. simpl. apply IH.
    destruct (truthy l); [|exact Hb].
    destruct base; [discriminate | exact Hb]. }
  split.
  - rewrite footer_of_lines. fold text. fold lines.
    destruct lines as [|l1 [|l2 [|l3 rest]]]; try (simpl; discriminate).
    do 2 (apply Forall_inv_tail in Ht). apply Forall_inv in Ht.
    destruct Ht as [Hne [_ Hlast]].
    unfold reversed_line at 1. simpl nth_error.
    destruct (rev l3) as [|c r] eqn:E.
    + exfalso. apply Hne. rewrite <- (rev_involutive l3), E. reflexivity.
    + rewrite (Hhd (c :: r) _ c eq_refl).
      intros H. injection H as ->.
      specialize (Hlast _ _ eq_refl). discriminate.
  - intros Hlen.
    destruct lines as [|l1 [|l2 [|l3 rest]]]; simpl in Hlen; try lia.
    do 2 (apply Forall_inv_tail in Ht). apply Forall_inv in Ht.
    unfold reversed_line. simpl. apply trimmed_rev_nonempty, Ht.
Qed.

End Resolver.

Lemma footnote_combination_witness :
  extract_lines_below_table Samples.page_two_tables Samples.table_bbox 70
    = [51; 67; 10; 52; 68; 10; 53; 69]%N.
Proof.
  exact (proj1 (footnote_combination Samples.page_two_tables Samples.table_bbox 70)
           [65; 49]%N [66; 50]%N [67; 51]%N [68; 52]%N [69; 53]%N [[70; 54]%N] eq_refl).
Defined.

Lemma title_lines_witness :
  extract_header_above_table Samples.page_one_line Samples.table_bbox 60
    = (rev [111; 110; 108; 121; 32; 108; 105; 110; 101]%N, []).
Proof.
  exact (proj1 (proj2 (title_lines Samples.page_one_line Samples.table_bbox 60))
           [111; 110; 108; 121; 32; 108; 105; 110; 101]%N eq_refl).
Defined.

Lemma footnote_no_leading_newline_witness :
  rev [67; 51]%N <> [].
Proof.
  exact (proj2 (footnote_no_leading_newline Samples.page_two_tables Samples.table_bbox 70)
           ltac:(vm_compute; lia)).
Defined.

(** C10: a band whose text is not empty but made of whitespace only
    still gives two empty title strings and an empty footnote. *)
Theorem blank_band_degrades
    (page : Page) (table_bbox : BBox) (height_above height_scan : float) :
  (forall text,
      within_bbox_extract_text page (header_bbox page table_bbox height_above) = Some text ->
      text <> [] -> forallb is_space text = true ->
      extract_header_above_table page table_bbox height_above = ([], []))
  /\ (forall text,
         within_bbox_extract_text page (footer_bbox page table_bbox height_scan) = Some text ->
         text <> [] -> forallb is_space text = true ->
         extract_lines_below_table page table_bbox height_scan = []).
Proof.
  split; intros text Htext _ Hblank.
  - rewrite header_of_lines, Htext. simpl text_value.
    rewrite (stripped_lines_blank _ Hblank). reflexivity.
  - rewrite footer_of_lines, Htext. simpl text_value.
    rewrite (stripped_lines_blank _ Hblank). reflexivity.
Qed.

Lemma blank_band_degrades_witness :
  extract_header_above_table Samples.page_blank Samples.table_bbox 60 = ([], [])
  /\ extract_lines_below_table Samples.page_blank Samples.table_bbox 70 = [].
Proof.
  pose proof (blank_band_degrades Samples.page_blank Samples.table_bbox 60 70) as [Hh Hf].
  split.
  - apply (Hh Samples.blank_text); [reflexivity | discriminate | reflexivity].
  - apply (Hf Samples.blank_text); [reflexivity | discriminate | reflexivity].
Defined.

(** ** The normalizer *)

Lemma reverse_cell_involutive (x : cell) : reverse_cell (reverse_cell x) = x.
Proof. destruct x; simpl; try reflexivity. rewrite rev_involutive. reflexivity. Qed.

Lemma nth_error_rev_str (s : str) (i : nat) :
  i < length s -> nth_error (rev s) i = nth_error s (length s - 1 - i).
Proof.
  intros Hi.
  rewrite (nth_error_nth' (rev s) 0%N) by (rewrite length_rev; exact Hi).
  rewrite (nth_error_nth' s 0%N) by lia.
  rewrite rev_nth by exact Hi.
  do 2 f_equal. lia.
Qed.

(** C4: [reverse_strings] keeps the shape of the frame, leaves every cell
    that is not a string as it is, replaces a string of length L by the
    string of length L with the same characters in reverse order, and
    applied twice gives the frame back. *)
Theorem reverse_strings_spec (df : DataFrame) :
  let df' := reverse_strings df in
  nrows df' = nrows df
  /\ labels df' = labels df
  /\ map (fun c : column => length (snd c)) (columns df')
       = map (fun c : column => length (snd c)) (columns df)
  /\ (forall i, row_at df' i
                = map (fun lc => (fst lc, reverse_cell (snd lc))) (row_at df i))
  /\ (forall x, (forall s, x <> CStr s) -> reverse_cell x = x)
  /\ (forall s, reverse_cell (CStr s) = CStr (rev s)
                /\ length (rev s) = length s
                /\ (forall i, i < length s ->
                              nth_error (rev s) i = nth_error s (length s - 1 - i))
                /\ rev (rev s) = s)
  /\ reverse_strings df' = df.
Proof.
  intros df'. unfold df', reverse_strings, applymap, labels, row_at. simpl.
  repeat split.
  - rewrite map_map. reflexivity.
  - rewrite map_map. apply map_ext. intros c. simpl. apply length_map.
  - intros i. rewrite !map_map. apply map_ext. intros [l v]. simpl.
    f_equal. apply (map_nth reverse_cell v CNaN i).
  - intros x Hx. destruct x; try reflexivity. exfalso. exact (Hx s eq_refl).
  - apply length_rev.
  - apply nth_error_rev_str.
  - apply rev_involutive.
  - destruct df as [n cols]. simpl. f_equal.
    rewrite map_map. rewrite <- (map_id cols) at 2.
    apply map_ext. intros [l v]. simpl. f_equal.
    rewrite map_map. rewrite <- (map_id v) at 2.
    apply map_ext. apply reverse_cell_involutive.
Qed.

Lemma reverse_strings_spec_witness :
  nth_error (rev [97; 98; 99]%N) 0 = nth_error [97; 98; 99]%N (3 - 1 - 0).
Proof.
  pose proof (reverse_strings_spec (pd_DataFrame (Samples.grid 97 98 99))) as H.
  cbv zeta in H.
  destruct H as (_ & _ & _ & _ & _ & H & _).
  destruct (H [97; 98; 99]%N) as (_ & _ & Hnth & _).
  apply Hnth. simpl. lia.
Defined.

(** ** Frames built for a table *)

Lemma str_eqb_eq (s t : str) : str_eqb s t = true <-> s = t.
Proof.
  revert t. induction s as [|c s IH]; intros [|d t]; simpl;
    try (split; [discriminate | congruence]); [tauto|].
  rewrite andb_true_iff, N.eqb_eq, IH. split.
  - intros [-> ->]. reflexivity.
  - intros E. injection E as -> ->. split; reflexivity.
Qed.

Lemma label_eqb_eq (a b : label) : label_eqb a b = true <-> a = b.
Proof.
  destruct a as [n|s], b as [m|t]; simpl;
    try (split; [discriminate | congruence]).
  - rewrite Nat.eqb_eq. split; congruence.
  - rewrite str_eqb_eq. split; congruence.
Qed.

Lemma label_eqb_refl (a : label) : label_eqb a a = true.
Proof. apply label_eqb_eq. reflexivity. Qed.

Lemma positional_pd_DataFrame (table : Table) :
  positional (columns (reverse_strings (pd_DataFrame table))).
Proof.
  unfold positional, reverse_strings, applymap, pd_DataFrame. simpl.
  rewrite map_map. apply Forall_forall. intros c Hc.
  apply in_map_iff in Hc. destruct Hc as [j [<- _]].
  exists j. reflexivity.
Qed.

Lemma positional_no_name (cols : list column) (s : str) :
  positional cols -> existsb (label_eqb (LStr s)) (map fst cols) = false.
Proof.
  induction 1 as [|c cols [j Hj] _ IH]; simpl; [reflexivity|].
  rewrite Hj. exact IH.
Qed.

Lemma positional_find_name (cols rest : list column) (s : str) :
  positional cols ->
  find (fun c : column => label_eqb (fst c) (LStr s)) (cols ++ rest)
    = find (fun c : column => label_eqb (fst c) (LStr s)) rest.
Proof.
  induction 1 as [|c cols [j Hj] _ IH]; simpl; [reflexivity|].
  rewrite Hj. exact IH.
Qed.

(** Assigning to a label the frame does not have appends a column. *)
Lemma setitem_append (df : DataFrame) (name : label) (values : list cell) :
  existsb (label_eqb name) (labels df) = false ->
  setitem df name values
    = {| nrows := nrows df; columns := columns df ++ [(name, values)] |}.
Proof. intros H. unfold setitem. rewrite H. reflexivity. Qed.

Lemma setitem_after_positional
    (n : nat) (cols meta : list column) (s : str) (values : list cell) :
  positional cols ->
  existsb (label_eqb (LStr s)) (map fst meta) = false ->
  setitem {| nrows := n; columns := cols ++ meta |} (LStr s) values
    = {| nrows := n; columns := cols ++ meta ++ [(LStr s, values)] |}.
Proof.
  intros Hp Hm. rewrite setitem_append.
  - simpl. rewrite <- app_assoc. reflexivity.
  - unfold labels. cbn [columns]. rewrite map_app, existsb_app.
    apply orb_false_iff. split; [exact (positional_no_name _ s Hp) | exact Hm].
Qed.

(** The frame built by the loop body: the reversed cells of the table,
    then the six metadata columns. *)
Lemma process_table_frame
    (page_num : Z) (page : Page) (reshte : str) (table : Table) (table_obj : TableObj) :
  process_table page_num page reshte table table_obj
    = {| nrows := length table;
         columns :=
           columns (reverse_strings (pd_DataFrame table))
           ++ metadata_columns (length table) page_num reshte
                (fst (extract_header_above_table page (bbox table_obj) default_height_above))
                (snd (extract_header_above_table page (bbox table_obj) default_height_above))
                (extract_lines_below_table page (bbox table_obj) default_height_scan) |}.
Proof.
  unfold process_table.
  destruct (extract_header_above_table page (bbox table_obj) default_height_above)
    as [header_line1 header_line2].
  pose proof (positional_pd_DataFrame table) as Hp.
  set (cols := columns (reverse_strings (pd_DataFrame table))) in *.
  assert (E0 : reverse_strings (pd_DataFrame table)
               = {| nrows := length table; columns := cols ++ [] |}).
  { unfold cols. rewrite app_nil_r. reflexivity. }
  rewrite E0. unfold setitem_scalar, col_page, col_row, col_reshte, col_title1,
    col_title2, col_footer.
  rewrite (@setitem_after_positional _ _ _ _ _ Hp) by reflexivity.
  cbn [nrows app].
  rewrite (@setitem_after_positional _ _ _ _ _ Hp) by reflexivity.
  cbn [nrows app].
  rewrite (@setitem_after_positional _ _ _ _ _ Hp) by reflexivity.
  cbn [nrows app].
  rewrite (@setitem_after_positional _ _ _ _ _ Hp) by reflexivity.
  cbn [nrows app].
  rewrite (@setitem_after_positional _ _ _ _ _ Hp) by reflexivity.
  cbn [nrows app].
  rewrite (@setitem_after_positional _ _ _ _ _ Hp) by reflexivity.
  reflexivity.
Qed.

(** ** The frames of a page *)

Lemma tables_loop (f : Table -> TableObj -> DataFrame)
    (pairs : list (Table * TableObj)) (all_dfs : list DataFrame) :
  fold_left
    (fun all_dfs (p : Table * TableObj) =>
       let (table, table_obj) := p in
       if negb (list_truthy table) then all_dfs
       else all_dfs ++ [f table table_obj])
    pairs all_dfs
  = all_dfs ++ map (fun p => f (fst p) (snd p)) (filter nonempty_pair pairs).
Proof.
  revert all_dfs. induction pairs as [|[table table_obj] pairs IH]; intros all_dfs; simpl.
  - rewrite app_nil_r. reflexivity.
  - rewrite IH. unfold nonempty_pair at 2. simpl.
    destruct (list_truthy table); simpl; [|reflexivity].
    rewrite <- app_assoc. reflexivity.
Qed.

Lemma page_frames_matching (page_num : Z) (page : Page) (reshte : str) :
  length (extract_tables page) = length (find_tables page) ->
  page_frames page_num page reshte
    = map (fun p => process_table page_num page reshte (fst p) (snd p))
          (filter nonempty_pair (combine (extract_tables page) (find_tables page))).
Proof.
  intros Hlen. unfold page_frames. rewrite tables_loop. simpl.
  rewrite Hlen, Nat.eqb_refl.
  destruct (extract_tables page), (find_tables page); try discriminate; reflexivity.
Qed.

Lemma page_frames_mismatch (page_num : Z) (page : Page) (reshte : str) :
  length (extract_tables page) <> length (find_tables page) ->
  page_frames page_num page reshte = [].
Proof.
  intros Hlen. unfold page_frames.
  apply Nat.eqb_neq in Hlen. rewrite Hlen, andb_false_r. reflexivity.
Qed.

Lemma process_pages_page (pdf_name : str) (reshte : str) (pages : list Page) :
  forall (start : Z) (file : ExcelFile),
    In file (process_pages pdf_name start pages reshte) ->
    exists n page,
      nth_error pages n = Some page
      /\ (excel_page file = start + Z.of_nat n)%Z
      /\ process_page pdf_name (start + Z.of_nat n) page reshte = Some file.
Proof.
  induction pages as [|page pages IH]; intros start file Hin; simpl in Hin; [contradiction|].
  assert (Hrest : In file (process_pages pdf_name (start + 1) pages reshte) ->
                  exists n page0,
                    nth_error (page :: pages) n = Some page0
                    /\ (excel_page file = start + Z.of_nat n)%Z
                    /\ process_page pdf_name (start + Z.of_nat n) page0 reshte = Some file).
  { intros H. destruct (IH _ _ H) as (n & page0 & Hn & Hp & Hf).
    exists (S n), page0. replace (start + Z.of_nat (S n))%Z with (start + 1 + Z.of_nat n)%Z by lia.
    auto. }
  destruct (process_page pdf_name start page reshte) as [file0|] eqn:E; [|auto].
  destruct Hin as [<- | Hin]; [|auto].
  exists 0, page. simpl. rewrite Z.add_0_r. repeat split; [|exact E].
  unfold process_page in E. destruct (list_truthy _); [|discriminate].
  injection E as <-. reflexivity.
Qed.

Lemma page_frames_inv (page_num : Z) (page : Page) (reshte : str) (df : DataFrame) :
  In df (page_frames page_num page reshte) ->
  length (extract_tables page) = length (find_tables page)
  /\ exists table table_obj,
       In (table, table_obj) (combine (extract_tables page) (find_tables page))
       /\ table <> []
       /\ df = process_table page_num page reshte table table_obj.
Proof.
  intros Hin.
  destruct (Nat.eq_dec (length (extract_tables page)) (length (find_tables page)))
    as [Hlen|Hlen].
  - split; [exact Hlen|].
    rewrite (page_frames_matching _ _ _ Hlen) in Hin.
    apply in_map_iff in Hin. destruct Hin as [[table table_obj] [<- Hp]].
    apply filter_In in Hp. destruct Hp as [Hp Hne].
    exists table, table_obj. repeat split; [exact Hp|].
    intros ->. discriminate.
  - rewrite (page_frames_mismatch _ _ _ Hlen) in Hin. contradiction.
Qed.

(** ** Concatenation *)

Lemma union_labels_In (l : label) (ls : list label) :
  In l (union_labels ls) <-> In l ls.
Proof.
  induction ls as [|x ls IH]; simpl; [tauto|].
  rewrite filter_In, IH.
  destruct (label_eqb l x) eqn:E; simpl.
  - apply label_eqb_eq in E. subst x. intuition congruence.
  - assert (x <> l).
    { intros ->. rewrite label_eqb_refl in E. discriminate. }
    intuition congruence.
Qed.

Lemma find_labelled (g : label -> list cell) (name : label) (ls : list label) :
  In name ls ->
  find (fun c : column => label_eqb (fst c) name) (map (fun l => (l, g l)) ls)
    = Some (name, g name).
Proof.
  induction ls as [|l ls IH]; simpl; [contradiction|].
  intros Hin. destruct (label_eqb l name) eqn:E.
  - apply label_eqb_eq in E. subst l. reflexivity.
  - apply IH. destruct Hin as [->|Hin]; [|exact Hin].
    rewrite label_eqb_refl in E. discriminate.
Qed.

(** A column of the concatenation is made of the frames' columns of that
    label, one after the other. *)
Lemma get_column_concat (dfs : list DataFrame) (name : label) :
  In name (flat_map labels dfs) ->
  get_column (pd_concat dfs) name
    = Some (flat_map (fun df => column_or_nan df name) dfs).
Proof.
  intros Hin. unfold get_column, pd_concat. cbn [columns].
  rewrite (find_labelled (fun l => flat_map (fun df => column_or_nan df l) dfs)).
  - reflexivity.
  - apply union_labels_In. exact Hin.
Qed.

Lemma get_column_row (n : nat) (cols : list column)
    (page_num : Z) (reshte title1 title2 footnote : str) :
  positional cols ->
  get_column {| nrows := n;
                columns := cols ++ metadata_columns n page_num reshte title1 title2 footnote |}
             col_row
    = Some (map CInt (range_from_1 n)).
Proof.
  intros Hp. unfold get_column, col_row. cbn [columns].
  rewrite (positional_find_name _ _ _ Hp). reflexivity.
Qed.

Lemma process_table_row_column
    (page_num : Z) (page : Page) (reshte : str) (table : Table) (table_obj : TableObj) :
  get_column (process_table page_num page reshte table table_obj) col_row
    = Some (map CInt (range_from_1 (length table))).
Proof.
  rewrite process_table_frame. apply get_column_row. apply positional_pd_DataFrame.
Qed.

Lemma process_table_has_row_label
    (page_num : Z) (page : Page) (reshte : str) (table : Table) (table_obj : TableObj) :
  In col_row (labels (process_table page_num page reshte table table_obj)).
Proof.
  rewrite process_table_frame. unfold labels. cbn [columns].
  rewrite map_app. apply in_or_app. right. simpl. auto.
Qed.

Lemma nonempty_tables_of_pairs (tables : list Table) :
  forall table_objs : list TableObj,
    length tables = length table_objs ->
    map fst (filter nonempty_pair (combine tables table_objs))
      = filter (@list_truthy (list cell)) tables.
Proof.
  induction tables as [|t tables IH]; intros [|o objs] Hlen; simpl in *;
    try discriminate; [reflexivity|].
  injection Hlen as Hlen. unfold nonempty_pair at 1. simpl.
  destruct (list_truthy t); simpl; rewrite (IH _ Hlen); reflexivity.
Qed.

Lemma flat_map_map (A B C : Type) (g : A -> B) (f : B -> list C) (l : list A) :
  flat_map f (map g l) = flat_map (fun x => f (g x)) l.
Proof.
  induction l as [|x l IH]; simpl; [reflexivity|]. rewrite IH. reflexivity.
Qed.

(** C5: the row-index column of every table frame reads 1..N for the N
    rows of that table, and the row-index column of the page result is
    the sequence of these runs, one per processed table in order: it
    starts again at 1 with every table and is not renumbered. *)
Theorem row_index_local
    (pdf_name : str) (page_num : Z) (page : Page) (reshte : str) (file : ExcelFile) :
  process_page pdf_name page_num page reshte = Some file ->
  get_column (excel_data file) col_row
    = Some (flat_map (fun table : Table => map CInt (range_from_1 (length table)))
              (filter (@list_truthy (list cell)) (extract_tables page)))
  /\ (forall df, In df (page_frames page_num page reshte) ->
                 get_column df col_row = Some (map CInt (range_from_1 (nrows df)))).
Proof.
  intros Hfile. split.
  - unfold process_page in Hfile.
    destruct (page_frames page_num page reshte) as [|df0 dfs] eqn:Hframes;
      [discriminate|].
    simpl in Hfile. injection Hfile as <-. cbn [excel_data].
    assert (Hin : In df0 (page_frames page_num page reshte))
      by (rewrite Hframes; left; reflexivity).
    destruct (page_frames_inv _ _ _ _ Hin) as [Hlen (table & table_obj & _ & _ & Hdf)].
    rewrite get_column_concat.
    + rewrite <- Hframes, (page_frames_matching _ _ _ Hlen).
      rewrite flat_map_map.
      rewrite <- (nonempty_tables_of_pairs _ _ Hlen), flat_map_map.
      f_equal. apply flat_map_ext. intros [t o]. unfold column_or_nan.
      rewrite process_table_row_column. reflexivity.
    + simpl. apply in_or_app. left. rewrite Hdf. apply process_table_has_row_label.
  - intros df Hin.
    destruct (page_frames_inv _ _ _ _ Hin) as [_ (table & table_obj & _ & _ & ->)].
    rewrite process_table_row_column, process_table_frame. reflexivity.
Qed.

Lemma row_index_local_witness :
  get_column (pd_concat (page_frames 1 Samples.page_two_tables Samples.reshte)) col_row
    = Some [CInt 1; CInt 2; CInt 3; CInt 1; CInt 2; CInt 3].
Proof.
  exact (proj1 (@row_index_local Samples.pdf_name 1 Samples.page_two_tables Samples.reshte
                  _ eq_refl)).
Defined.

(** ** The page loop *)

(** C3: a page whose list of cell grids and list of table objects differ
    in length gives no frame, hence no row, and no file is written for
    it; a frame is built only on a page where the two lengths agree. *)
Theorem mismatch_guard
    (pdf_name : str) (pages : list Page) (reshte : str) (n : nat) (page : Page) :
  nth_error pages n = Some page ->
  length (extract_tables page) <> length (find_tables page) ->
  page_frames (1 + Z.of_nat n) page reshte = []
  /\ process_page pdf_name (1 + Z.of_nat n) page reshte = None
  /\ (forall file, In file (process_pdf pdf_name pages reshte) ->
                   excel_page file <> (1 + Z.of_nat n)%Z)
  /\ (forall page_num' page' df,
         In df (page_frames page_num' page' reshte) ->
         length (extract_tables page') = length (find_tables page')).
Proof.
  intros Hpage Hlen.
  assert (Hnone : process_page pdf_name (1 + Z.of_nat n) page reshte = None).
  { unfold process_page. rewrite (page_frames_mismatch _ _ _ Hlen). reflexivity. }
  split; [apply page_frames_mismatch; exact Hlen|].
  split; [exact Hnone|]. split.
  - intros file Hin Heq.
    destruct (process_pages_page _ _ _ _ _ Hin) as (m & page0 & Hm & Hnum & Hfile).
    assert (m = n) by lia. subst m.
    rewrite Hpage in Hm. injection Hm as <-.
    rewrite Hnone in Hfile. discriminate.
  - intros page_num' page' df Hin. apply (page_frames_inv _ _ _ _ Hin).
Qed.

Lemma mismatch_guard_witness :
  page_frames 1 Samples.page_mismatch Samples.reshte = []
  /\ process_page Samples.pdf_name 1 Samples.page_mismatch Samples.reshte = None
  /\ map excel_page
         (process_pdf Samples.pdf_name [Samples.page_mismatch; Samples.page_two_tables]
            Samples.reshte) = [2%Z].
Proof.
  destruct (mismatch_guard Samples.pdf_name [Samples.page_mismatch; Samples.page_two_tables]
              Samples.reshte 0 Samples.page_mismatch eq_refl)
    as (Hframes & Hnone & _).
  - simpl. discriminate.
  - split; [exact Hframes|]. split; [exact Hnone|]. reflexivity.
Defined.

Lemma nth_repeat_lt (x d : cell) (n i : nat) : i < n -> nth i (repeat x n) d = x.
Proof.
  revert i. induction n as [|n IH]; intros [|i] Hi; simpl; try lia; [reflexivity|].
  apply IH. lia.
Qed.

Lemma nth_range_from_1 (n i : nat) :
  i < n -> nth i (map CInt (range_from_1 n)) CNaN = CInt (Z.of_nat i + 1).
Proof.
  intros Hi. unfold range_from_1.
  rewrite (nth_indep _ CNaN (CInt 0)) by (rewrite !length_map, length_seq; exact Hi).
  rewrite (map_nth CInt). change 0%Z with (Z.of_nat 0).
  rewrite (map_nth Z.of_nat), seq_nth by exact Hi.
  f_equal. lia.
Qed.

(** The loop that builds the footnote joins the lines it keeps. *)
Lemma append_lines_join (lines : list str) :
  Forall trimmed lines ->
  append_lines (reversed_line lines 2) [reversed_line lines 3; reversed_line lines 4]
    = join_lines (map (@rev char) (firstn 3 (skipn 2 lines))).
Proof.
  intros Ht. unfold append_lines, reversed_line.
  destruct lines as [|l1 [|l2 [|l3 [|l4 [|l5 rest]]]]]; try reflexivity.
  - do 3 apply Forall_inv_tail in Ht. apply Forall_inv in Ht.
    simpl. rewrite (trimmed_rev_truthy _ Ht). reflexivity.
  - do 3 apply Forall_inv_tail in Ht.
    pose proof (Forall_inv Ht) as H4. pose proof (Forall_inv (Forall_inv_tail Ht)) as H5.
    simpl. rewrite (trimmed_rev_truthy _ H4), (trimmed_rev_truthy _ H5).
    rewrite <- app_assoc. reflexivity.
Qed.



(** C8: the frame of a processed table is the frame of its raw cells
    passed once through [reverse_strings], followed by the six metadata
    columns holding the page number, the row numbers, the subject label
    as given, and the title lines and the footnote exactly as the two
    extraction functions return them. *)
Theorem metadata_after_normalizer
    (page_num : Z) (page : Page) (reshte : str) (df : DataFrame) :
  In df (page_frames page_num page reshte) ->
  exists (table : Table) (table_obj : TableObj),
    In (table, table_obj) (combine (extract_tables page) (find_tables page))
    /\ table <> []
    /\ let title :=
         extract_header_above_table page (bbox table_obj) default_height_above in
       let footnote :=
         extract_lines_below_table page (bbox table_obj) default_height_scan in
       let n := length table in
       df = {| nrows := n;
               columns :=
                 columns (reverse_strings (pd_DataFrame table))
                 ++ [ (col_page, repeat (CInt page_num) n);
                      (col_row, map CInt (range_from_1 n));
                      (col_reshte, repeat (CStr reshte) n);
                      (col_title1, repeat (CStr (fst title)) n);
                      (col_title2, repeat (CStr (snd title)) n);
                      (col_footer, repeat (CStr footnote) n) ] |}.
Proof.
  intros Hin.
  destruct (page_frames_inv _ _ _ _ Hin) as [_ (table & table_obj & Hp & Hne & ->)].
  exists table, table_obj. split; [exact Hp|]. split; [exact Hne|].
  cbv zeta. apply process_table_frame.
Qed.

Lemma metadata_after_normalizer_witness :
  exists (table : Table) (table_obj : TableObj),
    In (table, table_obj)
       (combine (extract_tables Samples.page_one_line) (find_tables Samples.page_one_line))
    /\ table <> []
    /\ process_table 1 Samples.page_one_line Samples.reshte
         (Samples.grid 97 98 99) {| bbox := Samples.table_bbox |}
       = {| nrows := length table;
            columns :=
              columns (reverse_strings (pd_DataFrame table))
              ++ [ (col_page, repeat (CInt 1) (length table));
                   (col_row, map CInt (range_from_1 (length table)));
                   (col_reshte, repeat (CStr Samples.reshte) (length table));
                   (col_title1,
                    repeat (CStr (fst (extract_header_above_table Samples.page_one_line
                                         (bbox table_obj) default_height_above)))
                           (length table));
                   (col_title2,
                    repeat (CStr (snd (extract_header_above_table Samples.page_one_line
                                         (bbox table_obj) default_height_above)))
                           (length table));
                   (col_footer,
                    repeat (CStr (extract_lines_below_table Samples.page_one_line
                                    (bbox table_obj) default_height_scan))
                           (length table)) ] |}.
Proof.
  apply (metadata_after_normalizer 1 Samples.page_one_line Samples.reshte).
  left. reflexivity.
Defined.

(** * Further properties of the code *)

(** ** Lines of a band *)

Section Lines.

Local Arguments is_space : simpl never.
Local Arguments is_linebreak : simpl never.

Lemma newline_is_linebreak : is_linebreak newline = true.
Proof. reflexivity. Qed.

Lemma lstrip_incl (s : str) (c : char) : In c (lstrip s) -> In c s.
Proof.
  destruct (lstrip_split s) as [p [Hs _]]. intros H.
  rewrite Hs. apply in_or_app. right. exact H.
Qed.

Lemma strip_incl (s : str) (c : char) : In c (strip s) -> In c s.
Proof.
  unfold strip, rstrip. intros H.
  apply in_rev, lstrip_incl, in_rev in H. apply lstrip_incl. exact H.
Qed.

Lemma single_line_strip (s : str) : single_line s -> single_line (strip s).
Proof.
  unfold single_line. rewrite !Forall_forall. intros H c Hc.
  apply H, strip_incl, Hc.
Qed.

Lemma single_line_rev (s : str) : single_line s -> single_line (rev s).
Proof.
  unfold single_line. rewrite !Forall_forall. intros H c Hc.
  apply H, in_rev. exact Hc.
Qed.

(** No line produced by [splitlines] contains a line boundary. *)
Lemma splitlines_from_single (n : nat) :
  forall (text line : str),
    length text <= n ->
    single_line line ->
    Forall single_line (splitlines_from line text).
Proof.
  induction n as [|n IH]; intros text line Hlen Hline.
  - destruct text; [|simpl in Hlen; lia].
    simpl. destruct line; constructor; [|constructor].
    apply single_line_rev. exact Hline.
  - destruct text as [|c rest].
    + simpl. destruct line; constructor; [|constructor].
      apply single_line_rev. exact Hline.
    + simpl in Hlen. simpl. destruct (is_linebreak c) eqn:Hc.
      * constructor; [apply single_line_rev; exact Hline|].
        assert (H0 : Forall single_line (splitlines_from [] rest)).
        { apply IH; [lia | constructor]. }
        destruct (c =? carriage_return)%N; [|exact H0].
        destruct rest as [|c' rest']; [exact H0|].
        destruct (c' =? newline)%N; [|exact H0].
        simpl in Hlen. apply IH; [lia | constructor].
      * apply IH; [lia | constructor; [exact Hc | exact Hline]].
Qed.

Lemma stripped_lines_single (text : str) :
  Forall single_line (stripped_lines text).
Proof.
  unfold stripped_lines, splitlines. apply Forall_forall. intros l Hl.
  apply in_map_iff in Hl. destruct Hl as [line [<- Hline]].
  apply filter_In in Hline. destruct Hline as [Hline _].
  apply single_line_strip.
  pose proof (splitlines_from_single (length text) text [] (le_n _) (Forall_nil _)) as HF.
  rewrite Forall_forall in HF. apply HF. exact Hline.
Qed.

(** Reading a stretch without boundary only extends the current line. *)
Lemma splitlines_from_app (a : str) :
  forall (line rest : str),
    single_line a ->
    splitlines_from line (a ++ rest) = splitlines_from (rev a ++ line) rest.
Proof.
  induction a as [|c a IH]; intros line rest Ha; [reflexivity|].
  inversion Ha as [|? ? Hc Ha']; subst.
  simpl. rewrite Hc, IH by exact Ha'.
  rewrite <- app_assoc. reflexivity.
Qed.

Lemma splitlines_single (a : str) :
  single_line a -> a <> [] -> splitlines a = [a].
Proof.
  intros Ha Hne. unfold splitlines.
  rewrite <- (app_nil_r a) at 1. rewrite splitlines_from_app by exact Ha.
  simpl. rewrite app_nil_r.
  destruct (rev a) eqn:E.
  - exfalso. apply Hne. rewrite <- (rev_involutive a), E. reflexivity.
  - rewrite <- E, rev_involutive. reflexivity.
Qed.

Lemma splitlines_newline (a rest : str) :
  single_line a ->
  splitlines (a ++ newline :: rest) = a :: splitlines rest.
Proof.
  intros Ha. unfold splitlines. rewrite splitlines_from_app by exact Ha.
  cbn [splitlines_from]. rewrite newline_is_linebreak.
  change (newline =? carriage_return)%N with false. cbn iota.
  rewrite app_nil_r, rev_involutive. reflexivity.
Qed.

(** Splitting undoes joining, for non-empty lines without boundary. *)
Lemma splitlines_join (ls : list str) :
  Forall single_line ls -> Forall (fun l => l <> []) ls ->
  splitlines (join_lines ls) = ls.
Proof.
  induction ls as [|l ls IH]; intros Hs Hn; [reflexivity|].
  inversion Hs as [|? ? Hl Hs']; subst. inversion Hn as [|? ? Hl' Hn']; subst.
  destruct ls as [|l' ls].
  - simpl. apply splitlines_single; assumption.
  - change (join_lines (l :: l' :: ls)) with (l ++ newline :: join_lines (l' :: ls)).
    rewrite splitlines_newline by exact Hl.
    rewrite IH by assumption. reflexivity.
Qed.

Lemma trimmed_rev (l : str) : trimmed l -> trimmed (rev l).
Proof.
  intros [Hne [Hfirst Hlast]]. split; [|split].
  - apply trimmed_rev_nonempty. split; [exact Hne | split; assumption].
  - exact Hlast.
  - rewrite rev_involutive. exact Hfirst.
Qed.

(** The lines of a band, reversed: non-empty, trimmed, without
    boundary. *)
Lemma reversed_lines_wf (text : str) (ls : list str) :
  incl ls (stripped_lines text) ->
  Forall single_line (map (@rev char) ls)
  /\ Forall trimmed (map (@rev char) ls)
  /\ Forall (fun l => l <> []) (map (@rev char) ls).
Proof.
  intros Hincl.
  pose proof (stripped_lines_single text) as Hs.
  pose proof (stripped_lines_trimmed text) as Ht.
  rewrite Forall_forall in Hs, Ht.
  repeat split; apply Forall_forall; intros l Hl;
    apply in_map_iff in Hl; destruct Hl as [l0 [<- Hl0]]; apply Hincl in Hl0.
  - apply single_line_rev, Hs, Hl0.
  - apply trimmed_rev, Ht, Hl0.
  - apply trimmed_rev_nonempty, Ht, Hl0.
Qed.

End Lines.

Lemma incl_firstn_skipn (A : Type) (n m : nat) (l : list A) :
  incl (firstn n (skipn m l)) l.
Proof.
  intros x Hx. rewrite <- (firstn_skipn m l). apply in_or_app. right.
  rewrite <- (firstn_skipn n (skipn m l)). apply in_or_app. left. exact Hx.
Qed.

Lemma filter_linebreak_single (l : str) :
  single_line l -> filter is_linebreak l = [].
Proof.
  induction 1 as [|c r Hc _ IH]; [reflexivity|]. simpl. rewrite Hc. exact IH.
Qed.

(** ** What the title and the footnote consist of *)

Section ResolverOutput.

Variable page : Page.
Variable table_bbox : BBox.

Lemma footnote_joined (height_scan : float) :
  exists kept : list str,
    extract_lines_below_table page table_bbox height_scan = join_lines kept
    /\ Forall single_line kept
    /\ length kept <= 3.
Proof.
  set (lines := stripped_lines
                  (text_value (within_bbox_extract_text page
                                 (footer_bbox page table_bbox height_scan)))).
  exists (map (@rev char) (firstn 3 (skipn 2 lines))). split; [|split].
  - rewrite footer_of_lines. apply append_lines_join, stripped_lines_trimmed.
  - apply (reversed_lines_wf _ _ (incl_firstn_skipn _ 3 2 _)).
  - rewrite length_map. apply firstn_le_length.
Qed.

(** X1: the footnote is the third to fifth trimmed line of the footer
    band, those that exist, each reversed, joined by newlines; splitting
    the footnote at line boundaries gives these reversed lines back. *)
Theorem footnote_splits_back (height_scan : float) :
  let text := within_bbox_extract_text page (footer_bbox page table_bbox height_scan) in
  let lines := stripped_lines (text_value text) in
  let kept := map (@rev char) (firstn 3 (skipn 2 lines)) in
  extract_lines_below_table page table_bbox height_scan = join_lines kept
  /\ splitlines (extract_lines_below_table page table_bbox height_scan) = kept
  /\ stripped_lines (extract_lines_below_table page table_bbox height_scan) = kept.
Proof.
  intros text lines kept.
  assert (Hjoin : extract_lines_below_table page table_bbox height_scan = join_lines kept).
  { rewrite footer_of_lines. apply append_lines_join, stripped_lines_trimmed. }
  destruct (reversed_lines_wf (text_value text) (firstn 3 (skipn 2 lines))
              (incl_firstn_skipn _ 3 2 _)) as (Hs & Ht & Hn).
  fold kept in Hs, Ht, Hn.
  assert (Hsplit : splitlines (join_lines kept) = kept)
    by (apply splitlines_join; assumption).
  split; [exact Hjoin|]. split; [rewrite Hjoin; exact Hsplit|].
  rewrite Hjoin. unfold stripped_lines. rewrite Hsplit.
  clear Hjoin Hsplit Hs. induction kept as [|l ls IH]; [reflexivity|].
  inversion Ht as [|? ? Hl Ht']; subst. inversion Hn as [|? ? _ Hn']; subst.
  assert (E : strip l = l).
  { destruct Hl as (Hne & Hfirst & Hlast). unfold strip, rstrip.
    destruct l as [|c r]; [contradiction|].
    assert (E1 : lstrip (c :: r) = c :: r)
      by (simpl; rewrite (Hfirst c r eq_refl); reflexivity).
    rewrite E1. destruct (rev (c :: r)) as [|d q] eqn:Er.
    - exfalso. apply Hne. rewrite <- (rev_involutive (c :: r)), Er. reflexivity.
    - assert (E2 : lstrip (d :: q) = d :: q)
        by (simpl; rewrite (Hlast d q eq_refl); reflexivity).
      rewrite E2, <- Er. apply rev_involutive. }
  simpl. rewrite E.
  destruct l as [|c r]; [destruct Hl as [Hne _]; contradiction|].
  simpl. rewrite E. f_equal. apply IH; assumption.
Qed.

(** X2: the first title string is empty exactly when the header band has
    no trimmed line, the second exactly when it has at most one; the
    footnote is empty exactly when the footer band has at most two. *)
Theorem empty_fields (height_above height_scan : float) :
  let header_lines :=
    stripped_lines
      (text_value (within_bbox_extract_text page
                     (header_bbox page table_bbox height_above))) in
  let footer_lines :=
    stripped_lines
      (text_value (within_bbox_extract_text page
                     (footer_bbox page table_bbox height_scan))) in
  let title := extract_header_above_table page table_bbox height_above in
  (fst title = [] <-> header_lines = [])
  /\ (snd title = [] <-> length header_lines <= 1)
  /\ (extract_lines_below_table page table_bbox height_scan = []
      <-> length footer_lines <= 2).
Proof.
  intros header_lines footer_lines title.
  assert (Hh : Forall trimmed header_lines) by apply stripped_lines_trimmed.
  assert (Hf : Forall trimmed footer_lines) by apply stripped_lines_trimmed.
  unfold title. rewrite header_of_lines, footer_of_lines.
  fold header_lines footer_lines. cbn [fst snd].
  assert (Happ : forall base ls, append_lines base ls = [] -> base = []).
  { intros base ls. revert base. induction ls as [|l ls IH]; intros base H; [exact H|].
    unfold append_lines in H. simpl in H. apply IH in H.
    destruct (truthy l); [|exact H]. destruct base; [discriminate H | discriminate H]. }
  repeat split.
  - destruct header_lines as [|l1 ?]; [reflexivity|].
    unfold reversed_line. simpl. intros H.
    exfalso. exact (trimmed_rev_nonempty _ (Forall_inv Hh) H).
  - intros ->. reflexivity.
  - destruct header_lines as [|l1 [|l2 ?]]; simpl; try lia.
    unfold reversed_line. simpl. intros H.
    exfalso. exact (trimmed_rev_nonempty _ (Forall_inv (Forall_inv_tail Hh)) H).
  - destruct header_lines as [|l1 [|l2 ?]]; simpl; try reflexivity; lia.
  - intros H. apply Happ in H.
    destruct footer_lines as [|l1 [|l2 [|l3 ?]]]; simpl; try lia.
    unfold reversed_line in H. simpl in H.
    exfalso.
    exact (trimmed_rev_nonempty _ (Forall_inv (Forall_inv_tail (Forall_inv_tail Hf))) H).
  - destruct footer_lines as [|l1 [|l2 [|l3 ?]]]; simpl; try reflexivity; lia.
Qed.

(** X3: neither title string contains a line boundary, and each is empty
    or has no whitespace at either end; in the footnote the only line
    boundaries are newline characters, at most two of them. *)
Theorem fields_are_lines (height_above height_scan : float) :
  let title := extract_header_above_table page table_bbox height_above in
  let footnote := extract_lines_below_table page table_bbox height_scan in
  single_line (fst title) /\ single_line (snd title)
  /\ (fst title = [] \/ trimmed (fst title))
  /\ (snd title = [] \/ trimmed (snd title))
  /\ Forall (fun c => is_linebreak c = true -> c = newline) footnote
  /\ length (filter is_linebreak footnote) <= 2.
Proof.
  intros title footnote.
  set (lines := stripped_lines
                  (text_value (within_bbox_extract_text page
                                 (header_bbox page table_bbox height_above)))).
  assert (Hline : forall i,
             single_line (reversed_line lines i)
             /\ (reversed_line lines i = [] \/ trimmed (reversed_line lines i))).
  { intros i. unfold reversed_line.
    destruct (nth_error lines i) as [l|] eqn:E.
    - apply nth_error_In in E.
      pose proof (stripped_lines_single
                    (text_value (within_bbox_extract_text page
                                   (header_bbox page table_bbox height_above)))) as Hs.
      pose proof (stripped_lines_trimmed
                    (text_value (within_bbox_extract_text page
                                   (header_bbox page table_bbox height_above)))) as Ht.
      rewrite Forall_forall in Hs, Ht.
      split; [apply single_line_rev, Hs, E | right; apply trimmed_rev, Ht, E].
    - split; [constructor | left; reflexivity]. }
  unfold title. rewrite header_of_lines. fold lines. cbn [fst snd].
  split; [apply Hline|]. split; [apply Hline|].
  split; [apply Hline|]. split; [apply Hline|].
  destruct (footnote_joined height_scan) as [kept (Hk & Hs & Hlen)].
  fold footnote in Hk. rewrite Hk. clear Hk.
  assert (Hgen : Forall (fun c => is_linebreak c = true -> c = newline) (join_lines kept)
                 /\ length (filter is_linebreak (join_lines kept)) = pred (length kept)).
  { clear Hlen. induction kept as [|l ls IH]; [split; [constructor | reflexivity]|].
    inversion Hs as [|? ? Hl Hs']; subst.
    assert (Hl0 : Forall (fun c => is_linebreak c = true -> c = newline) l).
    { unfold single_line in Hl. rewrite Forall_forall in Hl |- *.
      intros c Hc Hb. rewrite (Hl c Hc) in Hb. discriminate. }
    pose proof (filter_linebreak_single l Hl) as Hl1.
    destruct ls as [|l' ls].
    - simpl. rewrite Hl1. split; [exact Hl0 | reflexivity].
    - destruct (IH Hs') as [IH1 IH2].
      change (join_lines (l :: l' :: ls)) with (l ++ newline :: join_lines (l' :: ls)).
      split.
      + apply Forall_app. split; [exact Hl0|]. constructor; [reflexivity | exact IH1].
      + rewrite filter_app, Hl1. cbn [app filter].
        change (is_linebreak newline) with true. cbn iota.
        cbn [length]. rewrite IH2. reflexivity. }
  destruct Hgen as [Hg1 Hg2]. split; [exact Hg1|]. rewrite Hg2. lia.
Qed.

End ResolverOutput.

Lemma footnote_splits_back_witness :
  splitlines (extract_lines_below_table Samples.page_two_tables Samples.table_bbox 70)
    = [[51; 67]; [52; 68]; [53; 69]]%N.
Proof.
  exact (proj1 (proj2 (footnote_splits_back Samples.page_two_tables Samples.table_bbox 70))).
Defined.

Lemma empty_fields_witness :
  snd (extract_header_above_table Samples.page_one_line Samples.table_bbox 60) = []
  /\ extract_lines_below_table Samples.page_one_line Samples.table_bbox 70 = [].
Proof.
  destruct (empty_fields Samples.page_one_line Samples.table_bbox 60 70)
    as (_ & Hsnd & Hfoot).
  split.
  - apply (proj2 Hsnd). simpl. lia.
  - apply (proj2 Hfoot). simpl. lia.
Defined.

Lemma fields_are_lines_witness : newline = newline.
Proof.
  destruct (fields_are_lines Samples.page_two_tables Samples.table_bbox 60 70)
    as (_ & _ & _ & _ & Hfoot & _).
  rewrite Forall_forall in Hfoot.
  apply (Hfoot newline); [right; right; left; reflexivity | reflexivity].
Defined.

(** ** The files written for a PDF *)

Lemma process_page_some
    (pdf_name : str) (page_num : Z) (page : Page) (reshte : str) (file : ExcelFile) :
  process_page pdf_name page_num page reshte = Some file ->
  file = {| excel_pdf_name := pdf_name; excel_page := page_num;
            excel_data := pd_concat (page_frames page_num page reshte) |}
  /\ page_frames page_num page reshte <> [].
Proof.
  unfold process_page. destruct (page_frames page_num page reshte) eqn:E; simpl.
  - discriminate.
  - intros H. injection H as <-. split; [reflexivity | discriminate].
Qed.

Lemma process_page_frames
    (pdf_name : str) (page_num : Z) (page : Page) (reshte : str) :
  page_frames page_num page reshte <> [] ->
  process_page pdf_name page_num page reshte
    = Some {| excel_pdf_name := pdf_name; excel_page := page_num;
              excel_data := pd_concat (page_frames page_num page reshte) |}.
Proof.
  unfold process_page. destruct (page_frames page_num page reshte); simpl.
  - intros H. exfalso. apply H. reflexivity.
  - reflexivity.
Qed.

Lemma process_pages_nth (pdf_name : str) (reshte : str) (pages : list Page) :
  forall (start : Z) (n : nat) (page : Page) (file : ExcelFile),
    nth_error pages n = Some page ->
    process_page pdf_name (start + Z.of_nat n) page reshte = Some file ->
    In file (process_pages pdf_name start pages reshte).
Proof.
  induction pages as [|page0 pages IH]; intros start n page file Hn Hfile.
  - destruct n; discriminate.
  - destruct n as [|n]; simpl in Hn.
    + injection Hn as ->. rewrite Z.add_0_r in Hfile.
      simpl. rewrite Hfile. left. reflexivity.
    + assert (Hin : In file (process_pages pdf_name (start + 1) pages reshte)).
      { apply (IH _ n page); [exact Hn|].
        replace (start + 1 + Z.of_nat n)%Z with (start + Z.of_nat (S n))%Z by lia.
        exact Hfile. }
      simpl. destruct (process_page pdf_name start page0 reshte); [right|]; exact Hin.
Qed.

Lemma process_pages_sorted (pdf_name : str) (reshte : str) (pages : list Page) :
  forall start : Z,
    StronglySorted Z.lt (map excel_page (process_pages pdf_name start pages reshte))
    /\ Forall (fun file =>
                 (start <= excel_page file < start + Z.of_nat (length pages))%Z
                 /\ excel_pdf_name file = pdf_name)
              (process_pages pdf_name start pages reshte).
Proof.
  induction pages as [|page pages IH]; intros start.
  - split; constructor.
  - destruct (IH (start + 1)%Z) as [Hs Hb].
    assert (Hb' : Forall (fun file =>
                           (start < excel_page file
                            /\ excel_page file < start + Z.of_nat (length (page :: pages)))%Z
                           /\ excel_pdf_name file = pdf_name)
                         (process_pages pdf_name (start + 1) pages reshte)).
    { rewrite Forall_forall in Hb |- *. intros f Hf.
      destruct (Hb f Hf) as [Hr Hn]. cbn [length]. rewrite Nat2Z.inj_succ.
      split; [lia | exact Hn]. }
    assert (Hb'' : Forall (fun file =>
                            (start <= excel_page file
                             < start + Z.of_nat (length (page :: pages)))%Z
                            /\ excel_pdf_name file = pdf_name)
                          (process_pages pdf_name (start + 1) pages reshte)).
    { rewrite Forall_forall in Hb' |- *. intros f Hf.
      destruct (Hb' f Hf) as [Hr Hn]. split; [lia | exact Hn]. }
    cbn [process_pages].
    destruct (process_page pdf_name start page reshte) as [file|] eqn:E;
      [|split; [exact Hs | exact Hb'']].
    destruct (process_page_some _ _ _ _ _ E) as [-> _]. split.
    + cbn [map excel_page]. constructor; [exact Hs|].
      apply Forall_forall. intros p Hp. apply in_map_iff in Hp.
      destruct Hp as [f [<- Hf]]. rewrite Forall_forall in Hb'.
      apply (Hb' f Hf).
    + constructor; [|exact Hb''].
      cbn [excel_page excel_pdf_name length]. rewrite Nat2Z.inj_succ.
      split; [lia | reflexivity].
Qed.

(** X5: the files written for a PDF come in strictly increasing page
    order, so at most one per page; each carries the name of the PDF
    and the number of one of its pages, counted from 1. *)
Theorem written_pages (pdf_name : str) (pages : list Page) (reshte : str) :
  let files := process_pdf pdf_name pages reshte in
  StronglySorted Z.lt (map excel_page files)
  /\ Forall (fun file =>
               (1 <= excel_page file <= Z.of_nat (length pages))%Z
               /\ excel_pdf_name file = pdf_name) files
  /\ length files <= length pages.
Proof.
  intros files. unfold files, process_pdf.
  destruct (process_pages_sorted pdf_name reshte pages 1) as [Hs Hb].
  split; [exact Hs|]. split.
  - rewrite Forall_forall in Hb |- *. intros f Hf.
    destruct (Hb f Hf) as [Hr Hn]. split; [lia | exact Hn].
  - generalize 1%Z. clear. induction pages as [|page pages IH]; intros start; simpl; [lia|].
    specialize (IH (start + 1)%Z).
    destruct (process_page pdf_name start page reshte); simpl; lia.
Qed.

Lemma page_frames_nonempty_iff (page_num : Z) (page : Page) (reshte : str) :
  page_frames page_num page reshte <> []
  <-> length (extract_tables page) = length (find_tables page)
      /\ exists table, In table (extract_tables page) /\ table <> [].
Proof.
  split.
  - intros Hne.
    destruct (page_frames page_num page reshte) as [|df dfs] eqn:E; [contradiction|].
    assert (Hin : In df (page_frames page_num page reshte)) by (rewrite E; left; reflexivity).
    destruct (page_frames_inv _ _ _ _ Hin) as [Hlen (table & table_obj & Hp & Ht & _)].
    split; [exact Hlen|]. exists table. split; [|exact Ht].
    apply in_combine_l in Hp. exact Hp.
  - intros [Hlen (table & Hin & Hne)] E.
    rewrite (page_frames_matching _ _ _ Hlen) in E.
    apply map_eq_nil in E.
    assert (Hf : In table (map fst (filter nonempty_pair
                                      (combine (extract_tables page) (find_tables page))))).
    { rewrite (nonempty_tables_of_pairs _ _ Hlen). apply filter_In.
      split; [exact Hin|]. destruct table; [contradiction | reflexivity]. }
    rewrite E in Hf. exact Hf.
Qed.

(** X6: a file written for the n-th page of a PDF shows that the page
    has as many cell grids as table objects and that one of the grids
    has a row; its content is the concatenation of the frames of that
    page alone, whatever the other pages are.  So a page without
    detected table, or whose grids are all empty, has no file. *)
Theorem page_written_only_if
    (pdf_name : str) (pages : list Page) (reshte : str) (n : nat) (page : Page)
    (file : ExcelFile) :
  nth_error pages n = Some page ->
  In file (process_pdf pdf_name pages reshte) ->
  excel_page file = (1 + Z.of_nat n)%Z ->
  length (extract_tables page) = length (find_tables page)
  /\ (exists table, In table (extract_tables page) /\ table <> [])
  /\ excel_data file = pd_concat (page_frames (1 + Z.of_nat n) page reshte).
Proof.
  intros Hpage Hin Hnum.
  destruct (process_pages_page _ _ _ _ _ Hin) as (m & page0 & Hm & Hp & Hfile).
  assert (m = n) by lia. subst m.
  rewrite Hpage in Hm. injection Hm as <-.
  destruct (process_page_some _ _ _ _ _ Hfile) as [-> Hne].
  apply page_frames_nonempty_iff in Hne. destruct Hne as [Hlen Hex].
  split; [exact Hlen|]. split; [exact Hex | reflexivity].
Qed.

Lemma page_written_only_if_witness :
  length (extract_tables Samples.page_widening)
    = length (find_tables Samples.page_widening)
  /\ (exists table, In table (extract_tables Samples.page_widening) /\ table <> [])
  /\ pd_concat (page_frames 2 Samples.page_widening Samples.reshte)
     = pd_concat (page_frames (1 + Z.of_nat 1) Samples.page_widening Samples.reshte).
Proof.
  refine (page_written_only_if Samples.pdf_name
            [Samples.page_no_table; Samples.page_widening] Samples.reshte
            1 Samples.page_widening
            {| excel_pdf_name := Samples.pdf_name; excel_page := 2;
               excel_data := pd_concat (page_frames 2 Samples.page_widening
                                          Samples.reshte) |}
            eq_refl _ eq_refl).
  left. reflexivity.
Defined.

(** ** File names *)

Lemma uint_digits_are_digits (d : Decimal.uint) :
  forallb is_digit (uint_digits d) = true.
Proof. induction d; simpl; try exact IHd; reflexivity. Qed.

Lemma uint_digits_inj (d : Decimal.uint) :
  forall d', uint_digits d = uint_digits d' -> d = d'.
Proof.
  induction d; destruct d'; simpl; intros H;
    try discriminate H; try reflexivity;
    injection H as H; f_equal; apply IHd; exact H.
Qed.

Lemma py_str_int_nonneg (n : Z) :
  (0 <= n)%Z ->
  exists d, Z.to_int n = Decimal.Pos d /\ py_str_int n = uint_digits d.
Proof.
  intros Hn. unfold py_str_int. destruct n as [|p|p]; simpl.
  - eexists. split; reflexivity.
  - eexists. split; reflexivity.
  - lia.
Qed.

Lemma py_str_int_inj (n m : Z) :
  (0 <= n)%Z -> (0 <= m)%Z -> py_str_int n = py_str_int m -> n = m.
Proof.
  intros Hn Hm E.
  destruct (py_str_int_nonneg n Hn) as (d & Hd & Ed).
  destruct (py_str_int_nonneg m Hm) as (d' & Hd' & Ed').
  rewrite Ed, Ed' in E. apply uint_digits_inj in E. subst d'.
  apply DecimalZ.to_int_inj. rewrite Hd, Hd'. reflexivity.
Qed.

(** Two strings that agree after a run of digits closed by another
    character have the same run. *)
Lemma digits_prefix_inj (a : str) :
  forall (b x y : str) (c d : char),
    forallb is_digit a = true -> forallb is_digit b = true ->
    is_digit c = false -> is_digit d = false ->
    a ++ c :: x = b ++ d :: y -> a = b /\ c :: x = d :: y.
Proof.
  induction a as [|e a IH]; intros [|f b] x y c d Ha Hb Hc Hd E; simpl in *.
  - split; [reflexivity | exact E].
  - injection E as -> _. apply andb_true_iff in Hb. destruct Hb as [Hf _].
    rewrite Hf in Hc. discriminate.
  - injection E as -> _. apply andb_true_iff in Ha. destruct Ha as [He _].
    rewrite He in Hd. discriminate.
  - injection E as -> E. apply andb_true_iff in Ha, Hb.
    destruct (IH b x y c d (proj2 Ha) (proj2 Hb) Hc Hd E) as [-> E'].
    split; [reflexivity | exact E'].
Qed.

Lemma excel_filename_inj (stem1 stem2 : str) (n m : Z) :
  (0 <= n)%Z -> (0 <= m)%Z ->
  excel_filename stem1 n = excel_filename stem2 m -> stem1 = stem2 /\ n = m.
Proof.
  intros Hn Hm E. unfold excel_filename in E.
  rewrite !app_assoc in E. apply app_inv_tail in E.
  apply (f_equal (@rev char)) in E. rewrite !rev_app_distr in E.
  cbn [rev app] in E.
  destruct (py_str_int_nonneg n Hn) as (d & _ & Ed).
  destruct (py_str_int_nonneg m Hm) as (d' & _ & Ed').
  assert (Hdig : forall k : Decimal.uint,
             forallb is_digit (rev (uint_digits k)) = true).
  { intros k. apply forallb_forall. intros c Hc. apply in_rev in Hc.
    pose proof (uint_digits_are_digits k) as H. rewrite forallb_forall in H.
    apply H. exact Hc. }
  apply digits_prefix_inj in E;
    [| rewrite Ed; apply Hdig | rewrite Ed'; apply Hdig | reflexivity | reflexivity].
  destruct E as [E1 E2].
  assert (Es : rev stem1 = rev stem2) by (injection E2 as E2; exact E2).
  apply (f_equal (@rev char)) in E1, Es. rewrite !rev_involutive in E1, Es.
  split; [exact Es|].
  apply py_str_int_inj; [exact Hn | exact Hm | exact E1].
Qed.

(** X7: the name [<stem>_page_<n>.xlsx] given to a written file
    determines the stem and the page number: two written files have the
    same name only if the stems their names were built from are equal
    and their page numbers are equal.  The files written for one PDF
    all have different names, so none of them overwrites another.  The
    stem is the one the script computes from the path of the PDF; two
    PDFs may have the same stem. *)
Theorem file_names_distinct
    (stem1 stem2 : str) (pages1 pages2 : list Page) (reshte1 reshte2 : str) :
  (forall file1 file2,
      In file1 (process_pdf stem1 pages1 reshte1) ->
      In file2 (process_pdf stem2 pages2 reshte2) ->
      file_name file1 = file_name file2 ->
      stem1 = stem2 /\ excel_page file1 = excel_page file2)
  /\ NoDup (map file_name (process_pdf stem1 pages1 reshte1)).
Proof.
  assert (Hb : forall stem pages reshte file,
             In file (process_pdf stem pages reshte) ->
             (0 <= excel_page file)%Z /\ excel_pdf_name file = stem).
  { intros stem pages reshte file Hin.
    destruct (process_pages_sorted stem reshte pages 1) as [_ H].
    rewrite Forall_forall in H. destruct (H file Hin) as [Hr Hn].
    split; [lia | exact Hn]. }
  split.
  - intros file1 file2 H1 H2 E.
    destruct (Hb _ _ _ _ H1) as [Hp1 Hn1]. destruct (Hb _ _ _ _ H2) as [Hp2 Hn2].
    unfold file_name in E. apply excel_filename_inj in E; [|exact Hp1 | exact Hp2].
    rewrite <- Hn1, <- Hn2. exact E.
  - destruct (process_pages_sorted stem1 reshte1 pages1 1) as [Hs _].
    fold (process_pdf stem1 pages1 reshte1) in Hs.
    assert (Hall : forall file, In file (process_pdf stem1 pages1 reshte1) ->
                                (0 <= excel_page file)%Z /\ excel_pdf_name file = stem1)
      by (intros file; apply Hb).
    induction (process_pdf stem1 pages1 reshte1) as [|file files IH]; [constructor|].
    cbn [map] in *. inversion Hs as [|? ? Hs' Hlt]; subst.
    constructor.
    + intros Hin. apply in_map_iff in Hin. destruct Hin as [file' [E Hin']].
      unfold file_name in E.
      apply excel_filename_inj in E;
        [| apply Hall; right; exact Hin' | apply Hall; left; reflexivity].
      rewrite Forall_forall in Hlt.
      specialize (Hlt (excel_page file') (in_map _ _ _ Hin')). lia.
    + apply IH; [exact Hs'|]. intros f Hf. apply Hall. right. exact Hf.
Qed.

Lemma file_names_distinct_witness :
  Samples.pdf_name = Samples.pdf_name /\ 2%Z = 2%Z.
Proof.
  refine (proj1 (file_names_distinct Samples.pdf_name Samples.pdf_name
                   [Samples.page_mismatch; Samples.page_two_tables]
                   [Samples.page_no_table; Samples.page_widening]
                   Samples.reshte Samples.reshte)
            {| excel_pdf_name := Samples.pdf_name; excel_page := 2;
               excel_data := pd_concat (page_frames 2 Samples.page_two_tables
                                          Samples.reshte) |}
            {| excel_pdf_name := Samples.pdf_name; excel_page := 2;
               excel_data := pd_concat (page_frames 2 Samples.page_widening
                                          Samples.reshte) |}
            _ _ _).
  - left. reflexivity.
  - left. reflexivity.
  - reflexivity.
Defined.

(** ** Shape and content of the frames *)

Lemma cell_columns (table : Table) :
  columns (reverse_strings (pd_DataFrame table))
    = map (fun j => (LInt j, map (fun row => reverse_cell (nth j row CNone)) table))
          (seq 0 (table_width table)).
Proof.
  unfold reverse_strings, applymap, pd_DataFrame. cbn [columns].
  rewrite map_map. apply map_ext. intros j. cbn [fst snd].
  rewrite map_map. reflexivity.
Qed.

Lemma labels_process_table
    (page_num : Z) (page : Page) (reshte : str) (table : Table) (table_obj : TableObj) :
  labels (process_table page_num page reshte table table_obj)
    = map LInt (seq 0 (table_width table)) ++ metadata_labels.
Proof.
  rewrite process_table_frame. unfold labels. cbn [columns].
  rewrite map_app, cell_columns, map_map. reflexivity.
Qed.

Lemma nrows_process_table
    (page_num : Z) (page : Page) (reshte : str) (table : Table) (table_obj : TableObj) :
  nrows (process_table page_num page reshte table table_obj) = length table.
Proof. rewrite process_table_frame. reflexivity. Qed.

Lemma rectangular_process_table
    (page_num : Z) (page : Page) (reshte : str) (table : Table) (table_obj : TableObj) :
  rectangular (process_table page_num page reshte table table_obj).
Proof.
  rewrite process_table_frame. unfold rectangular. cbn [columns nrows].
  apply Forall_app. split.
  - rewrite cell_columns. apply Forall_forall. intros c Hc.
    apply in_map_iff in Hc. destruct Hc as [j [<- _]]. cbn [snd]. apply length_map.
  - unfold metadata_columns, range_from_1.
    repeat constructor; cbn [snd];
      rewrite ?repeat_length, ?length_map, ?length_seq; reflexivity.
Qed.

Lemma get_column_In (df : DataFrame) (name : label) (values : list cell) :
  get_column df name = Some values -> In (name, values) (columns df).
Proof.
  unfold get_column. destruct (find _ (columns df)) as [[l v]|] eqn:E; [|discriminate].
  simpl. intros H. injection H as ->.
  apply find_some in E. destruct E as [Hin Hl]. cbn [fst] in Hl.
  apply label_eqb_eq in Hl. subst l. exact Hin.
Qed.

Lemma length_column_or_nan (df : DataFrame) (name : label) :
  rectangular df -> length (column_or_nan df name) = nrows df.
Proof.
  intros Hr. unfold column_or_nan.
  destruct (get_column df name) as [v|] eqn:E.
  - apply get_column_In in E. unfold rectangular in Hr. rewrite Forall_forall in Hr.
    exact (Hr _ E).
  - apply repeat_length.
Qed.

Lemma rectangular_concat (dfs : list DataFrame) :
  Forall rectangular dfs -> rectangular (pd_concat dfs).
Proof.
  intros Hr. unfold rectangular, pd_concat. cbn [columns nrows].
  apply Forall_forall. intros c Hc. apply in_map_iff in Hc.
  destruct Hc as [l [<- _]]. cbn [snd].
  induction Hr as [|df dfs Hdf _ IH]; [reflexivity|].
  cbn [flat_map map list_sum fold_right].
  rewrite length_app, (length_column_or_nan _ l Hdf), IH. reflexivity.
Qed.

Lemma frames_of_nonempty_tables (page_num : Z) (page : Page) (reshte : str) :
  page_frames page_num page reshte <> [] ->
  map nrows (page_frames page_num page reshte)
    = map (@length (list cell)) (nonempty_tables page)
  /\ map labels (page_frames page_num page reshte)
     = map (fun table => map LInt (seq 0 (table_width table)) ++ metadata_labels)
           (nonempty_tables page).
Proof.
  intros Hne. apply page_frames_nonempty_iff in Hne. destruct Hne as [Hlen _].
  rewrite (page_frames_matching _ _ _ Hlen). unfold nonempty_tables.
  rewrite <- (nonempty_tables_of_pairs _ _ Hlen), !map_map.
  split; apply map_ext; intros [table table_obj]; cbn [fst snd].
  - apply nrows_process_table.
  - apply labels_process_table.
Qed.

(** X8: every frame built for a table has one cell per row in every
    column and as many rows as the table, at least one; the page result
    written to a file is rectangular as well, and its number of rows is
    the total number of rows of the tables of the page that have any. *)
Theorem frames_rectangular
    (pdf_name : str) (page_num : Z) (page : Page) (reshte : str) (file : ExcelFile) :
  process_page pdf_name page_num page reshte = Some file ->
  rectangular (excel_data file)
  /\ nrows (excel_data file) = list_sum (map (@length (list cell)) (nonempty_tables page))
  /\ 0 < nrows (excel_data file)
  /\ (forall df, In df (page_frames page_num page reshte) ->
                 rectangular df /\ 0 < nrows df).
Proof.
  intros Hfile. destruct (process_page_some _ _ _ _ _ Hfile) as [-> Hne].
  cbn [excel_data].
  assert (Hall : forall df, In df (page_frames page_num page reshte) ->
                            rectangular df /\ 0 < nrows df).
  { intros df Hin.
    destruct (page_frames_inv _ _ _ _ Hin) as [_ (table & table_obj & _ & Ht & ->)].
    split; [apply rectangular_process_table|].
    rewrite nrows_process_table. destruct table; [contradiction | simpl; lia]. }
  destruct (frames_of_nonempty_tables page_num page reshte Hne) as [Hrows _].
  assert (Hn : nrows (pd_concat (page_frames page_num page reshte))
               = list_sum (map (@length (list cell)) (nonempty_tables page))).
  { unfold pd_concat. cbn [nrows]. rewrite Hrows. reflexivity. }
  split; [|split; [exact Hn | split; [|exact Hall]]].
  - apply rectangular_concat. apply Forall_forall. intros df Hin. apply Hall, Hin.
  - unfold pd_concat. cbn [nrows].
    destruct (page_frames page_num page reshte) as [|df dfs]; [contradiction|].
    destruct (Hall df (or_introl eq_refl)) as [_ Hpos].
    cbn [map list_sum fold_right]. lia.
Qed.

Lemma frames_rectangular_witness :
  nrows (pd_concat (page_frames 1 Samples.page_widening Samples.reshte))
    = list_sum (map (@length (list cell)) (nonempty_tables Samples.page_widening)).
Proof.
  exact (proj1 (proj2 (frames_rectangular Samples.pdf_name 1 Samples.page_widening
                         Samples.reshte _ eq_refl))).
Defined.

Lemma nth_table_column (table : Table) (i j : nat) :
  i < length table ->
  nth i (map (fun row => reverse_cell (nth j row CNone)) table) CNaN
    = reverse_cell (nth j (nth i table []) CNone).
Proof.
  intros Hi.
  rewrite (nth_indep _ CNaN (reverse_cell (nth j [] CNone)))
    by (rewrite length_map; exact Hi).
  apply (map_nth (fun row => reverse_cell (nth j row CNone))).
Qed.

Lemma text_cell_reversed (row : list cell) (j : nat) :
  Forall (fun x => text_cell x = true) row ->
  text_cell (reverse_cell (nth j row CNone)) = true.
Proof.
  intros Hrow.
  assert (H : text_cell (nth j row CNone) = true).
  { destruct (Nat.lt_ge_cases j (length row)) as [Hj|Hj].
    - rewrite Forall_forall in Hrow. apply Hrow, nth_In, Hj.
    - rewrite nth_overflow by exact Hj. reflexivity. }
  destruct (nth j row CNone); simpl in *; congruence.
Qed.

(** X9: for a table whose cells are strings or [None], row [i] of the
    frame built for it carries, under the labels 0, 1, ..., the cells of
    row [i] of the table in their order, strings reversed, with [None]
    where the row is shorter than the widest row, followed by the six
    metadata fields; every cell taken from the table is again a string
    or [None]. *)
Theorem frame_row
    (page_num : Z) (page : Page) (reshte : str) (table : Table) (table_obj : TableObj)
    (i : nat) :
  text_table table ->
  i < length table ->
  let title := extract_header_above_table page (bbox table_obj) default_height_above in
  let footnote := extract_lines_below_table page (bbox table_obj) default_height_scan in
  let cells :=
    map (fun j => (LInt j, reverse_cell (nth j (nth i table []) CNone)))
        (seq 0 (table_width table)) in
  row_at (process_table page_num page reshte table table_obj) i
    = cells
      ++ [ (col_page, CInt page_num);
           (col_row, CInt (Z.of_nat i + 1));
           (col_reshte, CStr reshte);
           (col_title1, CStr (fst title));
           (col_title2, CStr (snd title));
           (col_footer, CStr footnote) ]
  /\ length (nth i table []) <= table_width table
  /\ Forall (fun lc : label * cell => text_cell (snd lc) = true) cells.
Proof.
  intros Htext Hi title footnote cells. split; [|split].
  - rewrite process_table_frame. unfold row_at. cbn [columns].
    rewrite map_app, cell_columns, map_map. f_equal.
    + apply map_ext. intros j. cbn [fst snd]. f_equal. apply nth_table_column, Hi.
    + unfold metadata_columns. cbn [map fst snd].
      rewrite !nth_repeat_lt, nth_range_from_1 by exact Hi. reflexivity.
  - clear cells Htext. unfold table_width. revert i Hi.
    induction table as [|row table IH]; intros [|i] Hi; simpl in *; try lia.
    specialize (IH i ltac:(lia)). lia.
  - unfold cells. apply Forall_forall. intros lc Hlc.
    apply in_map_iff in Hlc. destruct Hlc as (j & <- & _). cbn [snd].
    apply text_cell_reversed.
    unfold text_table in Htext. rewrite Forall_forall in Htext.
    apply Htext, nth_In, Hi.
Qed.

Lemma frame_row_witness :
  row_at (process_table 4 Samples.page_one_line Samples.reshte
            (Samples.grid 97 98 99) {| bbox := Samples.table_bbox |}) 1
    = [ (LInt 0, CStr [51; 50; 98]%N); (LInt 1, CStr [56; 55]%N);
        (col_page, CInt 4); (col_row, CInt 2); (col_reshte, CStr Samples.reshte);
        (col_title1, CStr (rev [111; 110; 108; 121; 32; 108; 105; 110; 101]%N));
        (col_title2, CStr []); (col_footer, CStr []) ]
  /\ row_at (process_table 4 Samples.page_one_line Samples.reshte
               (Samples.grid 97 98 99) {| bbox := Samples.table_bbox |}) 2
     = [ (LInt 0, CStr [99%N]); (LInt 1, CNone);
         (col_page, CInt 4); (col_row, CInt 3); (col_reshte, CStr Samples.reshte);
         (col_title1, CStr (rev [111; 110; 108; 121; 32; 108; 105; 110; 101]%N));
         (col_title2, CStr []); (col_footer, CStr []) ].
Proof.
  assert (Htext : text_table (Samples.grid 97 98 99)) by (repeat constructor).
  split.
  - refine (proj1 (frame_row 4 Samples.page_one_line Samples.reshte
                     (Samples.grid 97 98 99) {| bbox := Samples.table_bbox |} 1
                     Htext _)).
    simpl. lia.
  - refine (proj1 (frame_row 4 Samples.page_one_line Samples.reshte
                     (Samples.grid 97 98 99) {| bbox := Samples.table_bbox |} 2
                     Htext _)).
    simpl. lia.
Defined.

(** ** Columns of the page result *)

Lemma get_column_metadata (n : nat) (cols : list column)
    (page_num : Z) (reshte title1 title2 footnote : str) :
  positional cols ->
  let df := {| nrows := n;
               columns := cols ++ metadata_columns n page_num reshte title1 title2 footnote |} in
  get_column df col_page = Some (repeat (CInt page_num) n)
  /\ get_column df col_reshte = Some (repeat (CStr reshte) n)
  /\ get_column df col_title1 = Some (repeat (CStr title1) n)
  /\ get_column df col_title2 = Some (repeat (CStr title2) n)
  /\ get_column df col_footer = Some (repeat (CStr footnote) n).
Proof.
  intros Hp df. unfold df, get_column, col_page, col_reshte, col_title1, col_title2,
    col_footer. cbn [columns].
  rewrite !(positional_find_name _ _ _ Hp). repeat split; reflexivity.
Qed.

Lemma find_positional (g : nat -> list cell) (j : nat) (rest : list column) (w : nat) :
  forall start : nat,
    find (fun c : column => label_eqb (fst c) (LInt j))
         (map (fun k => (LInt k, g k)) (seq start w) ++ rest)
    = if (start <=? j) && (j <? start + w)
      then Some (LInt j, g j)
      else find (fun c : column => label_eqb (fst c) (LInt j)) rest.
Proof.
  induction w as [|w IH]; intros start.
  - simpl. replace ((start <=? j) && (j <? start + 0)) with false; [reflexivity|].
    symmetry. apply andb_false_iff.
    destruct (Nat.leb_spec start j); [right; apply Nat.ltb_ge; lia | left; reflexivity].
  - cbn [seq map app find fst label_eqb]. destruct (Nat.eqb_spec start j) as [->|Hne].
    + replace ((j <=? j) && (j <? j + S w)) with true; [reflexivity|].
      symmetry. apply andb_true_iff. split; [apply Nat.leb_le | apply Nat.ltb_lt]; lia.
    + rewrite IH.
      destruct (Nat.leb_spec (S start) j), (Nat.leb_spec start j),
        (Nat.ltb_spec j (S start + w)), (Nat.ltb_spec j (start + S w));
        try lia; reflexivity.
Qed.

Lemma get_column_cells
    (page_num : Z) (page : Page) (reshte : str) (table : Table) (table_obj : TableObj)
    (j : nat) :
  get_column (process_table page_num page reshte table table_obj) (LInt j)
    = if j <? table_width table
      then Some (map (fun row => reverse_cell (nth j row CNone)) table)
      else None.
Proof.
  rewrite process_table_frame. unfold get_column. cbn [columns].
  rewrite cell_columns, find_positional. cbn [Nat.leb andb Nat.add].
  destruct (j <? table_width table); reflexivity.
Qed.

Lemma find_unlabelled (g : label -> list cell) (name : label) (ls : list label) :
  ~ In name ls ->
  find (fun c : column => label_eqb (fst c) name) (map (fun l => (l, g l)) ls) = None.
Proof.
  induction ls as [|l ls IH]; intros Hn; [reflexivity|].
  cbn [map find fst]. destruct (label_eqb l name) eqn:E.
  - apply label_eqb_eq in E. exfalso. apply Hn. left. exact E.
  - apply IH. intros H. apply Hn. right. exact H.
Qed.

Lemma flat_map_repeat (A : Type) (x : cell) (f : A -> nat) (l : list A) :
  flat_map (fun a => repeat x (f a)) l = repeat x (list_sum (map f l)).
Proof.
  induction l as [|a l IH]; [reflexivity|].
  cbn [flat_map map list_sum fold_right]. rewrite IH, repeat_app. reflexivity.
Qed.

Section PageResult.

Variable pdf_name : str.
Variable page_num : Z.
Variable page : Page.
Variable reshte : str.
Variable file : ExcelFile.
Hypothesis Hfile : process_page pdf_name page_num page reshte = Some file.

Let pairs := filter nonempty_pair (combine (extract_tables page) (find_tables page)).

Lemma result_frames :
  excel_data file = pd_concat (page_frames page_num page reshte)
  /\ page_frames page_num page reshte
     = map (fun p => process_table page_num page reshte (fst p) (snd p)) pairs
  /\ pairs <> []
  /\ map fst pairs = nonempty_tables page.
Proof.
  destruct (process_page_some _ _ _ _ _ Hfile) as [-> Hne].
  pose proof Hne as Hne'. apply page_frames_nonempty_iff in Hne'.
  destruct Hne' as [Hlen _].
  pose proof (page_frames_matching page_num page reshte Hlen) as Hm. fold pairs in Hm.
  split; [reflexivity|]. split; [exact Hm|]. split.
  - intros E. apply Hne. rewrite Hm, E. reflexivity.
  - apply nonempty_tables_of_pairs, Hlen.
Qed.

Lemma result_column (name : label) :
  In name metadata_labels ->
  get_column (excel_data file) name
    = Some (flat_map
              (fun p => column_or_nan
                          (process_table page_num page reshte (fst p) (snd p)) name)
              pairs).
Proof.
  intros Hin. destruct result_frames as (-> & Hm & Hne & _).
  rewrite get_column_concat.
  - rewrite Hm, flat_map_map. reflexivity.
  - rewrite Hm. destruct pairs as [|p ps]; [contradiction|].
    cbn [map flat_map]. apply in_or_app. left.
    rewrite labels_process_table. apply in_or_app. right. exact Hin.
Qed.

(** X10: in the page result the page-number column holds the page number
    on every row and the subject column the subject label on every row;
    the two title columns and the footnote column hold, for the rows of
    each table in turn, the strings extracted around that table. No
    metadata cell is NaN, whatever the widths of the tables. *)
Theorem result_metadata :
  let data := excel_data file in
  let run (text_of : TableObj -> str) :=
    flat_map (fun p : Table * TableObj =>
                repeat (CStr (text_of (snd p))) (length (fst p))) pairs in
  get_column data col_page = Some (repeat (CInt page_num) (nrows data))
  /\ get_column data col_reshte = Some (repeat (CStr reshte) (nrows data))
  /\ get_column data col_title1
     = Some (run (fun o => fst (extract_header_above_table page (bbox o)
                                  default_height_above)))
  /\ get_column data col_title2
     = Some (run (fun o => snd (extract_header_above_table page (bbox o)
                                  default_height_above)))
  /\ get_column data col_footer
     = Some (run (fun o => extract_lines_below_table page (bbox o) default_height_scan)).
Proof.
  intros data run.
  assert (Hn : nrows data
               = list_sum (map (fun p : Table * TableObj => length (fst p)) pairs)).
  { unfold data. destruct result_frames as (-> & Hm & _ & _).
    unfold pd_concat. cbn [nrows]. rewrite Hm, map_map. f_equal.
    apply map_ext. intros p. apply nrows_process_table. }
  assert (Hcol : forall p : Table * TableObj,
             let df := process_table page_num page reshte (fst p) (snd p) in
             column_or_nan df col_page = repeat (CInt page_num) (length (fst p))
             /\ column_or_nan df col_reshte = repeat (CStr reshte) (length (fst p))
             /\ column_or_nan df col_title1
                = repeat (CStr (fst (extract_header_above_table page (bbox (snd p))
                                       default_height_above))) (length (fst p))
             /\ column_or_nan df col_title2
                = repeat (CStr (snd (extract_header_above_table page (bbox (snd p))
                                       default_height_above))) (length (fst p))
             /\ column_or_nan df col_footer
                = repeat (CStr (extract_lines_below_table page (bbox (snd p))
                                  default_height_scan)) (length (fst p))).
  { intros p df. unfold df, column_or_nan. rewrite process_table_frame.
    destruct (get_column_metadata (length (fst p)) _ page_num reshte
                (fst (extract_header_above_table page (bbox (snd p)) default_height_above))
                (snd (extract_header_above_table page (bbox (snd p)) default_height_above))
                (extract_lines_below_table page (bbox (snd p)) default_height_scan)
                (positional_pd_DataFrame (fst p)))
      as (E1 & E2 & E3 & E4 & E5).
    rewrite E1, E2, E3, E4, E5. repeat split; reflexivity. }
  unfold data. repeat split.
  - rewrite result_column by (simpl; auto). f_equal. fold data. rewrite Hn.
    rewrite <- flat_map_repeat. apply flat_map_ext. intros p. apply (Hcol p).
  - rewrite result_column by (simpl; auto 7). f_equal. fold data. rewrite Hn.
    rewrite <- flat_map_repeat. apply flat_map_ext. intros p. apply (Hcol p).
  - rewrite result_column by (simpl; auto 7). f_equal.
    apply flat_map_ext. intros p. apply (Hcol p).
  - rewrite result_column by (simpl; auto 7). f_equal.
    apply flat_map_ext. intros p. apply (Hcol p).
  - rewrite result_column by (simpl; auto 7). f_equal.
    apply flat_map_ext. intros p. apply (Hcol p).
Qed.

(** X11: on a page whose tables hold strings and [None] only, column
    [j] of the page result exists exactly when some table of the page
    that has rows is wider than [j]; it then holds, table after table
    and row after row, the cell at position [j] with its string
    reversed, [None] where the row is too short, and NaN on every row of
    a table that has no such column; so each of its cells is a string,
    [None] or NaN. *)
Theorem result_cells (j : nat) :
  Forall text_table (extract_tables page) ->
  let data := excel_data file in
  ((exists table, In table (nonempty_tables page) /\ j < table_width table) ->
   get_column data (LInt j)
     = Some (flat_map
               (fun table : Table =>
                  if j <? table_width table
                  then map (fun row => reverse_cell (nth j row CNone)) table
                  else repeat CNaN (length table))
               (nonempty_tables page)))
  /\ ((forall table, In table (nonempty_tables page) -> table_width table <= j) ->
      get_column data (LInt j) = None)
  /\ (forall values,
         get_column data (LInt j) = Some values ->
         Forall (fun x => text_cell x = true \/ x = CNaN) values).
Proof.
  intros Htext data. unfold data.
  destruct result_frames as (-> & Hm & _ & Hfst).
  assert (Hlab : In (LInt j) (flat_map labels (page_frames page_num page reshte))
                 <-> exists table, In table (nonempty_tables page) /\ j < table_width table).
  { rewrite Hm, flat_map_map, <- Hfst. rewrite in_flat_map. split.
    - intros (p & Hp & Hin). rewrite labels_process_table in Hin.
      exists (fst p). split; [apply in_map, Hp|].
      apply in_app_or in Hin. destruct Hin as [Hin|Hin].
      + apply in_map_iff in Hin. destruct Hin as (k & Hk & Hin).
        injection Hk as ->. apply in_seq in Hin. lia.
      + simpl in Hin. repeat (destruct Hin as [Hin|Hin]; [discriminate|]). contradiction.
    - intros (table & Hin & Hw). apply in_map_iff in Hin.
      destruct Hin as (p & <- & Hp). exists p. split; [exact Hp|].
      rewrite labels_process_table. apply in_or_app. left.
      apply in_map, in_seq. lia. }
  assert (Hsome : (exists table, In table (nonempty_tables page) /\ j < table_width table) ->
                  get_column (pd_concat (page_frames page_num page reshte)) (LInt j)
                  = Some (flat_map
                            (fun table : Table =>
                               if j <? table_width table
                               then map (fun row => reverse_cell (nth j row CNone)) table
                               else repeat CNaN (length table))
                            (nonempty_tables page))).
  { intros Hex. apply Hlab in Hex. rewrite (get_column_concat _ _ Hex).
    f_equal. rewrite Hm, flat_map_map, <- Hfst, flat_map_map.
    apply flat_map_ext. intros p. unfold column_or_nan.
    rewrite get_column_cells, nrows_process_table.
    destruct (j <? table_width (fst p)); reflexivity. }
  assert (Hnone : ~ (exists table, In table (nonempty_tables page) /\ j < table_width table) ->
                  get_column (pd_concat (page_frames page_num page reshte)) (LInt j) = None).
  { intros Hno. unfold get_column, pd_concat. cbn [columns].
    rewrite find_unlabelled; [reflexivity|].
    rewrite union_labels_In, Hlab. exact Hno. }
  split; [exact Hsome|]. split.
  - intros Hall. apply Hnone. intros (table & Hin & Hw).
    specialize (Hall table Hin). lia.
  - intros values Hv.
    assert (Hex : exists table, In table (nonempty_tables page) /\ j < table_width table).
    { apply Hlab. apply get_column_In in Hv.
      unfold pd_concat in Hv. cbn [columns] in Hv.
      apply in_map_iff in Hv. destruct Hv as (l & Hl & Hin).
      injection Hl as -> _. exact (proj1 (union_labels_In _ _) Hin). }
    rewrite (Hsome Hex) in Hv. injection Hv as <-.
    apply Forall_forall. intros x Hx. apply in_flat_map in Hx.
    destruct Hx as (table & Hin & Hx).
    assert (Ht : text_table table).
    { rewrite Forall_forall in Htext. apply Htext.
      unfold nonempty_tables in Hin. apply filter_In in Hin. apply Hin. }
    destruct (j <? table_width table).
    + left. apply in_map_iff in Hx. destruct Hx as (row & <- & Hrow).
      apply text_cell_reversed.
      unfold text_table in Ht. rewrite Forall_forall in Ht. apply Ht, Hrow.
    + right. apply repeat_spec in Hx. exact Hx.
Qed.

End PageResult.

Lemma result_metadata_witness :
  get_column (pd_concat (page_frames 3 Samples.page_widening Samples.reshte)) col_title1
    = Some [CStr (rev [111; 110; 108; 121; 32; 108; 105; 110; 101]%N);
            CStr (rev [111; 110; 108; 121; 32; 108; 105; 110; 101]%N);
            CStr (rev [111; 110; 108; 121; 32; 108; 105; 110; 101]%N);
            CStr []].
Proof.
  exact (proj1 (proj2 (proj2 (result_metadata Samples.pdf_name 3 Samples.page_widening
                                Samples.reshte _ eq_refl)))).
Defined.

Lemma result_cells_witness :
  get_column (pd_concat (page_frames 3 Samples.page_widening Samples.reshte)) (LInt 2)
    = Some [CNaN; CNaN; CNaN; CStr [102; 101]%N]
  /\ get_column (pd_concat (page_frames 3 Samples.page_widening Samples.reshte)) (LInt 1)
     = Some [CNone; CStr [56; 55]%N; CNone; CNone]
  /\ get_column (pd_concat (page_frames 3 Samples.page_widening Samples.reshte)) (LInt 3)
     = None.
Proof.
  assert (Htext : Forall text_table (extract_tables Samples.page_widening))
    by (repeat constructor).
  split; [|split].
  - refine (proj1 (result_cells Samples.pdf_name 3 Samples.page_widening
                     Samples.reshte _ eq_refl 2 Htext) _).
    exists [[CStr [100%N]; CNone; CStr [101%N; 102%N]]].
    split; [right; left; reflexivity | vm_compute; lia].
  - refine (proj1 (result_cells Samples.pdf_name 3 Samples.page_widening
                     Samples.reshte _ eq_refl 1 Htext) _).
    exists (Samples.grid 97 98 99).
    split; [left; reflexivity | vm_compute; lia].
  - refine (proj1 (proj2 (result_cells Samples.pdf_name 3 Samples.page_widening
                            Samples.reshte _ eq_refl 3 Htext)) _).
    intros table [H | [H | []]]; rewrite <- H; vm_compute; lia.
Defined.

(** ** Column order of the page result *)

Lemma filter_comp (A : Type) (f g : A -> bool) (l : list A) :
  filter f (filter g l) = filter (fun x => g x && f x) l.
Proof.
  induction l as [|x l IH]; [reflexivity|]. simpl.
  destruct (g x); simpl; [destruct (f x)|]; rewrite IH; reflexivity.
Qed.

Lemma filter_all (A : Type) (f : A -> bool) (l : list A) :
  (forall x, In x l -> f x = true) -> filter f l = l.
Proof.
  induction l as [|x l IH]; intros H; [reflexivity|]. simpl.
  rewrite (H x (or_introl eq_refl)), IH; [reflexivity|].
  intros y Hy. apply H. right. exact Hy.
Qed.

Lemma filter_map_comm (A B : Type) (f : B -> bool) (g : A -> B) (l : list A) :
  filter f (map g l) = map g (filter (fun x => f (g x)) l).
Proof.
  induction l as [|x l IH]; [reflexivity|]. simpl.
  destruct (f (g x)); simpl; rewrite IH; reflexivity.
Qed.

Lemma union_labels_app (a b : list label) :
  union_labels (a ++ b)
    = union_labels a
      ++ filter (fun l => negb (existsb (label_eqb l) a)) (union_labels b).
Proof.
  induction a as [|x a IH].
  - simpl. symmetry. apply filter_all. reflexivity.
  - cbn [app union_labels]. rewrite IH, filter_app, filter_comp.
    cbn [app]. do 2 f_equal. apply filter_ext. intros l. cbn [existsb].
    rewrite negb_orb. apply andb_comm.
Qed.

Lemma union_labels_nodup (ls : list label) : NoDup ls -> union_labels ls = ls.
Proof.
  induction 1 as [|x ls Hx _ IH]; [reflexivity|].
  cbn [union_labels]. rewrite IH. f_equal. apply filter_all.
  intros y Hy. destruct (label_eqb y x) eqn:E; [|reflexivity].
  apply label_eqb_eq in E. subst y. contradiction.
Qed.

Lemma NoDup_metadata_labels : NoDup metadata_labels.
Proof.
  unfold metadata_labels.
  repeat (constructor;
          [simpl; intros H;
           repeat (destruct H as [H|H]; [discriminate H|]); exact H|]).
  constructor.
Qed.

Lemma NoDup_frame_labels (w : nat) : NoDup (frame_labels w).
Proof.
  unfold frame_labels. apply NoDup_app.
  - apply Injective_map_NoDup; [|apply seq_NoDup].
    intros a b H. injection H as ->. reflexivity.
  - apply NoDup_metadata_labels.
  - intros l H1 H2. apply in_map_iff in H1. destruct H1 as (j & <- & _).
    simpl in H2. repeat (destruct H2 as [H2|H2]; [discriminate H2|]). exact H2.
Qed.

Lemma filter_seq_from (k w : nat) :
  filter (fun j => k <=? j) (seq 0 w) = seq k (w - k).
Proof.
  induction w as [|w IH]; [reflexivity|].
  rewrite seq_S, filter_app, IH. cbn [Nat.add filter].
  destruct (Nat.leb_spec k w).
  - replace (S w - k) with (S (w - k)) by lia.
    rewrite seq_S. do 2 f_equal. lia.
  - replace (S w - k) with 0 by lia. replace (w - k) with 0 by lia. reflexivity.
Qed.

Lemma frame_labels_has_int (w j : nat) :
  existsb (label_eqb (LInt j)) (frame_labels w) = (j <? w).
Proof.
  unfold frame_labels. rewrite existsb_app.
  replace (existsb (label_eqb (LInt j)) metadata_labels) with false by reflexivity.
  rewrite orb_false_r. apply eq_true_iff_eq.
  rewrite existsb_exists, Nat.ltb_lt. split.
  - intros (l & Hin & Hl). apply in_map_iff in Hin. destruct Hin as (k & <- & Hk).
    simpl in Hl. apply Nat.eqb_eq in Hl. subst k. apply in_seq in Hk. lia.
  - intros Hj. exists (LInt j). split; [|apply label_eqb_refl].
    apply in_map, in_seq. lia.
Qed.

Lemma fold_max_init (a : nat) (ws : list nat) :
  fold_right Nat.max a ws = Nat.max a (fold_right Nat.max 0 ws).
Proof.
  induction ws as [|w ws IH]; simpl; [lia|]. rewrite IH. lia.
Qed.

(** The positional labels from [k] on appear in increasing order in the
    union of the labels of frames. *)
Lemma filter_beyond_union (ws : list nat) :
  forall k : nat,
    filter (beyond k) (union_labels (flat_map frame_labels ws))
      = map LInt (seq k (fold_right Nat.max k ws - k)).
Proof.
  induction ws as [|w ws IH]; intros k.
  - simpl. rewrite Nat.sub_diag. reflexivity.
  - cbn [flat_map]. rewrite union_labels_app, filter_app.
    rewrite (union_labels_nodup _ (NoDup_frame_labels w)).
    assert (E1 : filter (beyond k) (frame_labels w) = map LInt (seq k (w - k))).
    { unfold frame_labels. rewrite filter_app, filter_map_comm. cbn [beyond].
      rewrite filter_seq_from.
      replace (filter (beyond k) metadata_labels) with (@nil label) by reflexivity.
      apply app_nil_r. }
    rewrite E1, filter_comp.
    rewrite (filter_ext _ (beyond (Nat.max k w))).
    + rewrite IH, <- map_app. f_equal.
      rewrite (fold_max_init (Nat.max k w)).
      cbn [fold_right]. rewrite (fold_max_init k).
      set (R := fold_right Nat.max 0 ws).
      replace (Nat.max w (Nat.max k R) - k)
        with ((w - k) + (Nat.max (Nat.max k w) R - Nat.max k w)) by lia.
      rewrite seq_app. do 2 f_equal. lia.
    + intros [j|s]; cbn [beyond]; [|apply andb_false_r].
      rewrite frame_labels_has_int.
      destruct (Nat.leb_spec k j), (Nat.ltb_spec j w), (Nat.leb_spec (Nat.max k w) j);
        try lia; reflexivity.
Qed.

Lemma labels_concat (dfs : list DataFrame) :
  labels (pd_concat dfs) = union_labels (flat_map labels dfs).
Proof.
  unfold labels at 1, pd_concat. cbn [columns]. rewrite map_map. apply map_id.
Qed.

(** X12: the columns of the page result are, in this order, the
    positional columns of the first table that has rows, the six
    metadata columns, and then one positional column for every further
    position that a wider table of the page has; so the metadata columns
    come last exactly when no table is wider than the first. *)
Theorem result_labels
    (pdf_name : str) (page_num : Z) (page : Page) (reshte : str) (file : ExcelFile) :
  process_page pdf_name page_num page reshte = Some file ->
  let widths := map table_width (nonempty_tables page) in
  let first := hd 0 widths in
  let widest := fold_right Nat.max 0 widths in
  labels (excel_data file)
    = map LInt (seq 0 first) ++ metadata_labels
      ++ map LInt (seq first (widest - first))
  /\ (widest = first ->
      labels (excel_data file) = map LInt (seq 0 first) ++ metadata_labels).
Proof.
  intros Hfile widths first widest.
  assert (Hmain : labels (excel_data file)
                  = map LInt (seq 0 first) ++ metadata_labels
                    ++ map LInt (seq first (widest - first))).
  { destruct (process_page_some _ _ _ _ _ Hfile) as [-> Hne]. cbn [excel_data].
    destruct (frames_of_nonempty_tables page_num page reshte Hne) as [_ Hl].
    rewrite labels_concat, flat_map_concat_map, Hl.
    change (map (fun table : Table =>
                   map LInt (seq 0 (table_width table)) ++ metadata_labels)
                (nonempty_tables page))
      with (map (fun table : Table => frame_labels (table_width table))
                (nonempty_tables page)).
    rewrite <- (map_map table_width frame_labels), <- flat_map_concat_map.
    unfold first, widest, widths.
    destruct (nonempty_tables page) as [|t ts] eqn:Ent.
    - exfalso. apply Hne. apply map_eq_nil in Hl. exact Hl.
    - cbn [map hd flat_map fold_right].
      generalize (table_width t) (map table_width ts). intros w ws.
      rewrite union_labels_app, (union_labels_nodup _ (NoDup_frame_labels w)).
      unfold frame_labels at 1. rewrite <- app_assoc. do 2 f_equal.
      rewrite <- (fold_max_init w), <- filter_beyond_union.
      apply filter_ext_in. intros l Hin.
      apply union_labels_In, in_flat_map in Hin. destruct Hin as (w' & _ & Hin).
      destruct l as [j|s].
      + rewrite frame_labels_has_int. cbn [beyond].
        destruct (Nat.ltb_spec j w), (Nat.leb_spec w j); try lia; reflexivity.
      + cbn [beyond].
        assert (Hs : In (LStr s) (frame_labels w)).
        { unfold frame_labels in Hin |- *. apply in_or_app. right.
          apply in_app_or in Hin. destruct Hin as [Hin|Hin]; [|exact Hin].
          apply in_map_iff in Hin. destruct Hin as (k & Hk & _). discriminate. }
        assert (Hex : existsb (label_eqb (LStr s)) (frame_labels w) = true).
        { apply existsb_exists. exists (LStr s). split; [exact Hs | apply label_eqb_refl]. }
        rewrite Hex. reflexivity. }
  split; [exact Hmain|].
  intros Heq. rewrite Hmain, Heq, Nat.sub_diag. cbn [seq map]. rewrite app_nil_r.
  reflexivity.
Qed.

Lemma result_labels_witness :
  labels (pd_concat (page_frames 1 Samples.page_widening Samples.reshte))
    = [LInt 0; LInt 1] ++ metadata_labels ++ [LInt 2]
  /\ labels (pd_concat (page_frames 1 Samples.page_two_tables Samples.reshte))
     = [LInt 0; LInt 1] ++ metadata_labels.
Proof.
  split.
  - exact (proj1 (result_labels Samples.pdf_name 1 Samples.page_widening
                    Samples.reshte _ eq_refl)).
  - exact (proj2 (result_labels Samples.pdf_name 1 Samples.page_two_tables
                    Samples.reshte _ eq_refl) eq_refl).
Defined.
